(** * JIXIFY backend: account lifecycle and token checks

    A shallow embedding of the two Express servers of the repository,
    [src/index.js] and [src/api/index.js], and the properties of their
    register / verify-email / login / authenticateToken handlers.

    The handlers are pure functions of the request, the table [users_tbl],
    the process configuration and an [environment] that fixes what the
    outside world does during the request (clock, salt, failures of the
    database driver, of bcrypt and of the mail transport).  The libraries the
    servers call (jsonwebtoken, bcrypt) are interfaces with the laws the
    proofs need; a small reference implementation of each makes every handler
    executable. *)

From Stdlib Require Import ZArith List Bool String Ascii Lia.
Import ListNotations.

Open Scope Z_scope.
Open Scope string_scope.

(** ** JavaScript strings as the handlers use them *)

Module Js.

(** A value that is a string or [undefined] / [null]: the fields of a request
    body, a header, a query parameter, a nullable column. *)
Definition value := option string.

Definition undefined : value := None.

Definition is_empty (s : string) : bool :=
  match s with EmptyString => true | String _ _ => false end.

(** Truthiness: [undefined], [null] and the empty string are falsy. *)
Definition truthy (v : value) : bool :=
  match v with
  | Some s => negb (is_empty s)
  | None => false
  end.

(** [a || b] *)
Definition or (a b : value) : value := if truthy a then a else b.

(** [a && f(a)] where the right operand reads the string [a]. *)
Definition and_then (a : value) (f : string -> value) : value :=
  match a with
  | Some s => if is_empty s then a else f s
  | None => None
  end.

(** [v] or else the empty string, as interpolated in a template. *)
Definition or_empty (v : value) : string :=
  match or v (Some EmptyString) with Some s => s | None => EmptyString end.

Fixpoint contains (c : ascii) (s : string) : bool :=
  match s with
  | EmptyString => false
  | String d rest => if Ascii.eqb d c then true else contains c rest
  end.

(** [s.split(sep)] for a one-character separator. *)
Fixpoint split (sep : ascii) (s : string) : list string :=
  match s with
  | EmptyString => [EmptyString]
  | String c rest =>
      if Ascii.eqb c sep then EmptyString :: split sep rest
      else match split sep rest with
           | [] => [String c EmptyString]
           | w :: ws => String c w :: ws
           end
  end.

(** Indexing an array, [undefined] out of range. *)
Definition index (arr : list string) (i : nat) : value := nth_error arr i.

(** [arr.join(sep)] *)
Fixpoint join (sep : ascii) (arr : list string) : string :=
  match arr with
  | [] => EmptyString
  | [w] => w
  | w :: ws => w ++ String sep (join sep ws)
  end.

(** [s.replace] of the pattern slash-at-end by nothing: drop one trailing
    slash. *)
Fixpoint strip_trailing_slash (s : string) : string :=
  match s with
  | EmptyString => EmptyString
  | String c rest =>
      if Ascii.eqb c "/" && is_empty rest then EmptyString
      else String c (strip_trailing_slash rest)
  end.

(** The double-quote and line-feed characters of the HTML templates. *)
Definition dquote : string := String (ascii_of_nat 34) EmptyString.
Definition newline : string := String (ascii_of_nat 10) EmptyString.

End Js.

(** The coercion of a value to a string, as a template or a driver does. *)
Definition js_string (v : Js.value) : string :=
  match v with Some s => s | None => "undefined" end.

(** ** Results of fallible calls *)

Inductive result (E A : Type) : Type :=
| Ok (a : A)
| Err (e : E).
Arguments Ok {E A} a.
Arguments Err {E A} e.

(** ** jsonwebtoken *)

(** The payloads the servers sign: [{ email }] for a verification link and
    [{ id, email }] for a session. *)
Record claims : Type := Claims {
  claim_id : option Z;
  claim_email : string
}.

Inductive jwt_error : Type :=
| TokenExpiredError
| JsonWebTokenError (message : string).

(** [jwt_sign payload secret expiresIn now] and [jwt_verify token secret now];
    times are in seconds.  A token verifies under the key that signed it until
    its expiry, and whatever verifies is a compact serialisation: non-empty and
    free of spaces. *)
Class JsonWebToken : Type := {
  jwt_sign : claims -> string -> Z -> Z -> string;
  jwt_verify : string -> string -> Z -> result jwt_error claims;
  jwt_verify_sign :
    forall payload secret expiresIn iat now,
      iat <= now < iat + expiresIn ->
      jwt_verify (jwt_sign payload secret expiresIn iat) secret now = Ok payload;
  jwt_verify_compact :
    forall token secret now payload,
      jwt_verify token secret now = Ok payload ->
      Js.is_empty token = false /\ Js.contains " " token = false
}.

(** The expiresIn options 1d and 1h, in seconds. *)
Definition one_day : Z := 86400.
Definition one_hour : Z := 3600.

(** ** bcrypt *)

(** [bcrypt_hash data rounds salt] and [bcrypt_compare data digest]. *)
Class Bcrypt : Type := {
  bcrypt_hash : string -> Z -> string -> string;
  bcrypt_compare : string -> string -> bool;
  bcrypt_compare_hash :
    forall data rounds salt,
      bcrypt_compare data (bcrypt_hash data rounds salt) = true
}.

(** ** The table [users_tbl] *)

Record user : Type := User {
  user_id : Z;
  user_username : option string;
  user_email : string;
  user_password : string;
  user_verified : bool;
  user_created_at : option Z
}.

Record database : Type := Database {
  users_tbl : list user;
  auto_increment : Z
}.

Definition empty_database : database :=
  {| users_tbl := []; auto_increment := 1 |}.

(** The error object the driver passes to a query callback. *)
Record db_error : Type := DbError {
  err_code : string;
  err_message : string
}.

(** The WHERE clauses and the UNIQUE columns compare strings as they are
    supplied. *)
Definition has_email (e : string) (u : user) : bool :=
  String.eqb (user_email u) e.

Definition has_username (n : string) (u : user) : bool :=
  match user_username u with
  | Some m => String.eqb m n
  | None => false
  end.

Definition duplicate_entry (entry key : string) : db_error :=
  {| err_code := "ER_DUP_ENTRY";
     err_message := "Duplicate entry '" ++ entry ++ "' for key '" ++ key ++ "'" |}.

Definition append_user (created : option Z) (username : option string)
    (email hashed : string) (db : database) : database :=
  {| users_tbl :=
       (users_tbl db ++
        [ {| user_id := auto_increment db;
             user_username := username;
             user_email := email;
             user_password := hashed;
             user_verified := false;
             user_created_at := created |} ])%list;
     auto_increment := auto_increment db + 1 |}.

(** [INSERT INTO users_tbl (username, email, password) VALUES (?, ?, ?)].
    Both columns are UNIQUE; a NULL username never collides.  [verified]
    takes its default [false]; [created] is the value of the [created_at]
    column where the schema has one. *)
Definition insert_user (created : option Z) (username : option string)
    (email hashed : string) (db : database) : result db_error database :=
  match username with
  | Some n =>
      if existsb (has_username n) (users_tbl db)
      then Err (duplicate_entry n "users_tbl.username")
      else if existsb (has_email email) (users_tbl db)
      then Err (duplicate_entry email "users_tbl.email")
      else Ok (append_user created username email hashed db)
  | None =>
      if existsb (has_email email) (users_tbl db)
      then Err (duplicate_entry email "users_tbl.email")
      else Ok (append_user created username email hashed db)
  end.

Definition set_verified (u : user) : user :=
  {| user_id := user_id u;
     user_username := user_username u;
     user_email := user_email u;
     user_password := user_password u;
     user_verified := true;
     user_created_at := user_created_at u |}.

(** [UPDATE users_tbl SET verified = true WHERE email = ?].  The driver
    connects with FOUND_ROWS, so [affectedRows] counts the rows the WHERE
    clause matches, changed or not. *)
Definition update_verified (email : string) (db : database) : database * Z :=
  ({| users_tbl :=
        map (fun u => if has_email email u then set_verified u else u)
            (users_tbl db);
      auto_increment := auto_increment db |},
   Z.of_nat (List.length (filter (has_email email) (users_tbl db)))).

(** [SELECT * FROM users_tbl WHERE email = ?] *)
Definition select_by_email (email : string) (db : database) : list user :=
  filter (has_email email) (users_tbl db).

(** The row a handler reads from that SELECT, [results[0]], if there is one:
    the account of an email. *)
Definition findByEmail (email : string) (db : database) : option user :=
  hd_error (select_by_email email db).

(** ** Requests, responses and the outside world *)

Record register_body : Type := RegisterBody {
  reg_username : Js.value;
  reg_email : Js.value;
  reg_password : Js.value
}.

Record login_body : Type := LoginBody {
  login_email : Js.value;
  login_password : Js.value
}.

(** What [authenticateToken] reads of a request: the Authorization header and
    [req.cookies?.token]. *)
Record auth_request : Type := AuthRequest {
  authorization : Js.value;
  cookie_token : Js.value
}.

Inductive res_body : Type :=
| JsonError (error : string)
| JsonMessage (message : string)
| JsonToken (token : string)
| Send (text : string)
| StatusText.

Record response : Type := Response {
  status : Z;
  body : res_body
}.

Record mail : Type := Mail {
  mail_from : string;
  mail_to : string;
  mail_subject : string;
  mail_html : string
}.

(** What a handler does besides answering and querying: the tokens it signs
    and the mails it hands to the transport. *)
Inductive event : Type :=
| Signed (payload : claims) (expiresIn : Z) (token : string)
| SendMail (m : mail).

Record outcome : Type := Outcome {
  out_db : database;
  out_res : response;
  out_log : list event
}.

(** [process.env] *)
Record config : Type := Config {
  JWT_SECRET : string;
  EMAIL_USER : string;
  BASE_URL : string;
  BASE_URL_PROD : string
}.

(** What the outside world does during one request: the clock (seconds), the
    salt bcrypt draws, and the failure, if any, of bcrypt, of the request's
    query and of the mail transport. *)
Record environment : Type := Environment {
  now : Z;
  salt : string;
  bcrypt_failure : option string;
  query_failure : option db_error;
  mail_failure : option string
}.

(** [db.query]: the driver's failure, if any, reaches the callback instead of
    the statement's result. *)
Definition query {A : Type} (env : environment) (statement : result db_error A)
    : result db_error A :=
  match query_failure env with
  | Some err => Err err
  | None => statement
  end.

Definition reply (db : database) (code : Z) (b : res_body) : outcome :=
  {| out_db := db; out_res := {| status := code; body := b |}; out_log := [] |}.

(** A bare answer: the table as given and nothing logged. *)
Definition answer (db : database) (res : response) : outcome :=
  {| out_db := db; out_res := res; out_log := [] |}.

(** The outcome of [authenticateToken]: a response, or [next()] with
    [req.user] set. *)
Inductive auth_result : Type :=
| Rejected (res : response)
| Next (user : claims).

(** ** The protected route and the completion service *)

(** One entry of the [messages] array sent to the completion service. *)
Record chat_message : Type := ChatMessage {
  role : string;
  content : string
}.

(** The argument of [openai.chat.completions.create]. *)
Record completion_request : Type := CompletionRequest {
  model : string;
  messages : list chat_message;
  max_tokens : option Z
}.

(** What the completion service returns: its [choices], each with its
    [message], if it has one, and the [content] of that message. *)
Definition completion : Type := list (option Js.value).

(** What [POST /chat] reads of a request. *)
Record chat_request : Type := ChatRequest {
  chat_auth : auth_request;
  chat_message_of : Js.value
}.

(** The answer of [POST /chat]: one of the JSON answers the other routes
    give too, or the reply object. *)
Inductive chat_response : Type :=
| Plain (res : response)
| Reply (reply : Js.value).

(** An answer and the calls made to the completion service on the way. *)
Record chat_outcome : Type := ChatOutcome {
  chat_res : chat_response;
  chat_calls : list completion_request
}.

(** The message of the TypeError thrown when a property is read off
    [undefined]. *)
Definition type_error (property : string) : string :=
  "Cannot read properties of undefined (reading '" ++ property ++ "')".

(** ** src/index.js *)

Module IndexJs.
Section Handlers.
Context {jwt : JsonWebToken} {bcrypt : Bcrypt}.
Variable cfg : config.

(** [signJwt(payload, expires)] *)
Definition signJwt (env : environment) (payload : claims) (expires : Z) : string :=
  jwt_sign payload (JWT_SECRET cfg) expires (now env).

(** [authenticateToken]: the second word of the Authorization header, or
    else the cookie. *)
Definition authenticateToken (env : environment) (req : auth_request) : auth_result :=
  let authHeader := authorization req in
  let tokenFromHeader :=
    Js.and_then authHeader (fun h => Js.index (Js.split " " h) 1) in
  let token := Js.or tokenFromHeader (cookie_token req) in
  if negb (Js.truthy token)
  then Rejected {| status := 401; body := JsonError "Access denied" |}
  else
    match jwt_verify (js_string token) (JWT_SECRET cfg) (now env) with
    | Err _ => Rejected {| status := 403; body := JsonError "Invalid token" |}
    | Ok user => Next user
    end.

Definition verifyLink (token : string) : string :=
  Js.strip_trailing_slash (BASE_URL_PROD cfg) ++ "/verify-email?token=" ++ token.

Definition verification_html (username : Js.value) (link : string) : string :=
  "<p>Hi " ++ Js.or_empty username ++ ",</p>" ++ Js.newline ++
  "                 <p>Click to verify your email: <a href=" ++ Js.dquote ++ link ++
  Js.dquote ++ ">" ++ link ++ "</a></p>".

(** [POST /register] *)
Definition register (env : environment) (db : database) (req : register_body)
    : outcome :=
  let username := reg_username req in
  let email := reg_email req in
  let password := reg_password req in
  if negb (Js.truthy email) || negb (Js.truthy password)
  then reply db 400 (JsonError "Email and password required")
  else
    match bcrypt_failure env with
    | Some _ => reply db 500 (JsonError "Server error")
    | None =>
        let hashed := bcrypt_hash (js_string password) 10 (salt env) in
        match query env (insert_user (Some (now env)) (Js.or username None)
                           (js_string email) hashed db) with
        | Err err =>
            if String.eqb (err_code err) "ER_DUP_ENTRY"
            then reply db 400 (JsonError "User or email already exists")
            else reply db 500 (JsonError "Database error")
        | Ok db' =>
            let payload := {| claim_id := None; claim_email := js_string email |} in
            let token := signJwt env payload one_day in
            let link := verifyLink token in
            let message :=
              {| mail_from := EMAIL_USER cfg;
                 mail_to := js_string email;
                 mail_subject := "Verify your email";
                 mail_html := verification_html username link |} in
            let log := [Signed payload one_day token; SendMail message] in
            match mail_failure env with
            | Some _ =>
                {| out_db := db';
                   out_res := {| status := 500;
                                 body := JsonError "Failed to send verification email" |};
                   out_log := log |}
            | None =>
                {| out_db := db';
                   out_res := {| status := 201;
                                 body := JsonMessage "Registered. Check your email to verify." |};
                   out_log := log |}
            end
        end
    end.

Definition verified_page : string :=
  "<html><body style=" ++ Js.dquote ++
  "font-family:Arial;text-align:center;padding:40px;" ++ Js.dquote ++ ">" ++
  Js.newline ++ "        <h1>✅ Email Verified</h1>" ++
  Js.newline ++ "        <p>You can now login at your frontend.</p>" ++
  Js.newline ++ "      </body></html>".

(** [GET /verify-email] *)
Definition verify_email (env : environment) (db : database) (token : Js.value)
    : outcome :=
  if negb (Js.truthy token)
  then reply db 400 (Send "Token missing")
  else
    match jwt_verify (js_string token) (JWT_SECRET cfg) (now env) with
    | Err _ => reply db 400 (Send "Invalid or expired token")
    | Ok decoded =>
        match query env (Ok (update_verified (claim_email decoded) db)) with
        | Err _ => reply db 500 (Send "Database error")
        | Ok (db', affectedRows) =>
            if Z.eqb affectedRows 0
            then reply db' 404 (Send "Email not found")
            else reply db' 200 (Send verified_page)
        end
    end.

(** [POST /login] *)
Definition login (env : environment) (db : database) (req : login_body)
    : outcome :=
  let email := login_email req in
  let password := login_password req in
  if negb (Js.truthy email) || negb (Js.truthy password)
  then reply db 400 (JsonError "Email and password required")
  else
    match query env (Ok (select_by_email (js_string email) db)) with
    | Err _ => reply db 500 (JsonError "Database error")
    | Ok [] => reply db 400 (JsonError "User not found")
    | Ok (user :: _) =>
        if negb (user_verified user)
        then reply db 403 (JsonError "Email not verified")
        else if negb (bcrypt_compare (js_string password) (user_password user))
        then reply db 400 (JsonError "Invalid credentials")
        else
          let payload := {| claim_id := Some (user_id user);
                            claim_email := user_email user |} in
          let token := signJwt env payload one_hour in
          {| out_db := db;
             out_res := {| status := 200; body := JsonToken token |};
             out_log := [Signed payload one_hour token] |}
    end.

(** [POST /chat], behind [authenticateToken].  [upstream] is what the
    completion service does when called: it returns, or it throws an error
    with a message. *)
Definition chat (env : environment) (upstream : result string completion)
    (req : chat_request) : chat_outcome :=
  match authenticateToken env (chat_auth req) with
  | Rejected res => {| chat_res := Plain res; chat_calls := [] |}
  | Next _ =>
      let message := chat_message_of req in
      if negb (Js.truthy message)
      then {| chat_res := Plain {| status := 400;
                                   body := JsonError "Message is required" |};
              chat_calls := [] |}
      else
        let call :=
          {| model := "gpt-4o-mini";
             messages :=
               [ {| role := "system"; content := "You are an assistant." |};
                 {| role := "user"; content := js_string message |} ];
             max_tokens := Some 2000 |} in
        match upstream with
        | Err _ =>
            {| chat_res := Plain {| status := 500;
                                    body := JsonError "AI processing error" |};
               chat_calls := [call] |}
        | Ok choices =>
            let aiText :=
              match choices with
              | Some (Some text) :: _ => text
              | _ => EmptyString
              end in
            {| chat_res := Reply (Some aiText); chat_calls := [call] |}
        end
  end.

End Handlers.
End IndexJs.

(** ** src/api/index.js *)

Module ApiIndexJs.
Section Handlers.
Context {jwt : JsonWebToken} {bcrypt : Bcrypt}.
Variable cfg : config.

(** [authenticateToken]: the second word of the Authorization header. *)
Definition authenticateToken (env : environment) (req : auth_request) : auth_result :=
  let authHeader := authorization req in
  let token := Js.and_then authHeader (fun h => Js.index (Js.split " " h) 1) in
  if negb (Js.truthy token)
  then Rejected {| status := 401; body := StatusText |}
  else
    match jwt_verify (js_string token) (JWT_SECRET cfg) (now env) with
    | Err _ => Rejected {| status := 403; body := StatusText |}
    | Ok user => Next user
    end.

Definition verifyLink (token : string) : string :=
  BASE_URL cfg ++ "/verify-email?token=" ++ token.

Definition verification_html (link : string) : string :=
  "<p>Click <a href=" ++ Js.dquote ++ link ++ Js.dquote ++
  ">here</a> to verify your email.</p>".

(** [POST /register] *)
Definition register (env : environment) (db : database) (req : register_body)
    : outcome :=
  let username := reg_username req in
  let email := reg_email req in
  let password := reg_password req in
  if negb (Js.truthy username) || negb (Js.truthy email) || negb (Js.truthy password)
  then reply db 400 (JsonError "Missing fields")
  else
    match bcrypt_failure env with
    | Some message => reply db 500 (JsonError message)
    | None =>
        let hashedPassword := bcrypt_hash (js_string password) 10 (salt env) in
        match query env (insert_user None username (js_string email)
                           hashedPassword db) with
        | Err err => reply db 400 (JsonError (err_message err))
        | Ok db' =>
            let payload := {| claim_id := None; claim_email := js_string email |} in
            let token := jwt_sign payload (JWT_SECRET cfg) one_day (now env) in
            let link := verifyLink token in
            let message :=
              {| mail_from := EMAIL_USER cfg;
                 mail_to := js_string email;
                 mail_subject := "Verify your email";
                 mail_html := verification_html link |} in
            {| out_db := db';
               out_res := {| status := 200;
                             body := JsonMessage "Registered! Check your email to verify." |};
               out_log := [Signed payload one_day token; SendMail message] |}
        end
    end.

(** [GET /verify-email] *)
Definition verify_email (env : environment) (db : database) (token : Js.value)
    : outcome :=
  if negb (Js.truthy token)
  then reply db 400 (JsonError "Token missing")
  else
    match jwt_verify (js_string token) (JWT_SECRET cfg) (now env) with
    | Err _ => reply db 400 (JsonError "Invalid token")
    | Ok decoded =>
        match query env (Ok (update_verified (claim_email decoded) db)) with
        | Err _ => reply db 500 (JsonError "Database error")
        | Ok (db', _) => reply db' 200 (Send "Email verified! You can now log in.")
        end
    end.

(** [POST /login] *)
Definition login (env : environment) (db : database) (req : login_body)
    : outcome :=
  let email := login_email req in
  let password := login_password req in
  if negb (Js.truthy email) || negb (Js.truthy password)
  then reply db 400 (JsonError "Email and password are required")
  else
    match query env (Ok (select_by_email (js_string email) db)) with
    | Err err => reply db 500 (JsonError (err_message err))
    | Ok [] => reply db 400 (JsonError "User not found")
    | Ok (user :: _) =>
        if negb (user_verified user)
        then reply db 400 (JsonError "Email not verified")
        else if negb (bcrypt_compare (js_string password) (user_password user))
        then reply db 400 (JsonError "Invalid credentials")
        else
          let payload := {| claim_id := Some (user_id user);
                            claim_email := user_email user |} in
          let token := jwt_sign payload (JWT_SECRET cfg) one_hour (now env) in
          {| out_db := db;
             out_res := {| status := 200; body := JsonToken token |};
             out_log := [Signed payload one_hour token] |}
    end.

(** [POST /chat], behind [authenticateToken].  Reading [choices[0].message.content]
    off a completion without a first choice, or off a choice without a
    message, throws inside the try block. *)
Definition chat (env : environment) (upstream : result string completion)
    (req : chat_request) : chat_outcome :=
  match authenticateToken env (chat_auth req) with
  | Rejected res => {| chat_res := Plain res; chat_calls := [] |}
  | Next _ =>
      let message := chat_message_of req in
      if negb (Js.truthy message)
      then {| chat_res := Plain {| status := 400;
                                   body := JsonError "Message is required" |};
              chat_calls := [] |}
      else
        let call :=
          {| model := "gpt-4o-mini";
             messages := [ {| role := "user"; content := js_string message |} ];
             max_tokens := None |} in
        match upstream with
        | Err message =>
            {| chat_res := Plain {| status := 500; body := JsonError message |};
               chat_calls := [call] |}
        | Ok [] =>
            {| chat_res := Plain {| status := 500;
                                    body := JsonError (type_error "message") |};
               chat_calls := [call] |}
        | Ok (None :: _) =>
            {| chat_res := Plain {| status := 500;
                                    body := JsonError (type_error "content") |};
               chat_calls := [call] |}
        | Ok (Some text :: _) =>
            {| chat_res := Reply text; chat_calls := [call] |}
        end
  end.

End Handlers.
End ApiIndexJs.

(** ** The two servers side by side *)

Inductive server : Type :=
| index_js
| api_index_js.

Inductive request : Type :=
| Register (req : register_body)
| VerifyEmail (token : Js.value)
| Login (req : login_body).

Section Servers.
Context {jwt : JsonWebToken} {bcrypt : Bcrypt}.
Variable cfg : config.

Definition register (s : server) : environment -> database -> register_body -> outcome :=
  match s with
  | index_js => IndexJs.register cfg
  | api_index_js => ApiIndexJs.register cfg
  end.

Definition verify_email (s : server) : environment -> database -> Js.value -> outcome :=
  match s with
  | index_js => IndexJs.verify_email cfg
  | api_index_js => ApiIndexJs.verify_email cfg
  end.

Definition login (s : server) : environment -> database -> login_body -> outcome :=
  match s with
  | index_js => IndexJs.login cfg
  | api_index_js => ApiIndexJs.login cfg
  end.

Definition authenticateToken (s : server) : environment -> auth_request -> auth_result :=
  match s with
  | index_js => IndexJs.authenticateToken cfg
  | api_index_js => ApiIndexJs.authenticateToken cfg
  end.

(** One request against the table. *)
Definition handle (s : server) (env : environment) (db : database) (r : request)
    : outcome :=
  match r with
  | Register req => register s env db req
  | VerifyEmail token => verify_email s env db token
  | Login req => login s env db req
  end.

(** The tables a server can reach from the empty one. *)
Inductive reachable (s : server) : database -> Prop :=
| reachable_empty : reachable s empty_database
| reachable_handle env db r :
    reachable s db -> reachable s (out_db (handle s env db r)).

(** What a server asks of a registration body before it touches anything. *)
Definition required_fields (s : server) (req : register_body) : bool :=
  match s with
  | index_js => Js.truthy (reg_email req) && Js.truthy (reg_password req)
  | api_index_js =>
      Js.truthy (reg_username req) && Js.truthy (reg_email req)
      && Js.truthy (reg_password req)
  end.

(** The username column of a registration: [username || null] in
    src/index.js, [username] in src/api/index.js. *)
Definition stored_username (s : server) (req : register_body) : option string :=
  match s with
  | index_js => Js.or (reg_username req) None
  | api_index_js => reg_username req
  end.

(** The body and status each server answers a completed registration with. *)
Definition registered (s : server) : response :=
  match s with
  | index_js =>
      {| status := 201; body := JsonMessage "Registered. Check your email to verify." |}
  | api_index_js =>
      {| status := 200; body := JsonMessage "Registered! Check your email to verify." |}
  end.

End Servers.

(** [POST /chat] of each server. *)
Definition chat {jwt : JsonWebToken} (cfg : config) (s : server)
    : environment -> result string completion -> chat_request -> chat_outcome :=
  match s with
  | index_js => IndexJs.chat cfg
  | api_index_js => ApiIndexJs.chat cfg
  end.

(** An environment in which nothing fails. *)
Definition calm (clock : Z) (s : string) : environment :=
  {| now := clock; salt := s; bcrypt_failure := None;
     query_failure := None; mail_failure := None |}.

Definition email_taken (email : string) (db : database) : bool :=
  existsb (has_email email) (users_tbl db).

Definition username_taken (username : option string) (db : database) : bool :=
  match username with
  | Some n => existsb (has_username n) (users_tbl db)
  | None => false
  end.

(** The mails of a log. *)
Fixpoint mails (log : list event) : list mail :=
  match log with
  | [] => []
  | SendMail m :: rest => m :: mails rest
  | Signed _ _ _ :: rest => mails rest
  end.

(** ** Reference implementations of the library interfaces *)

Module Reference.

(** *** Encodings over a small alphabet

    A byte is written as eight binary digits and a number as the spine of its
    binary representation, so that no encoded field holds a dot or a space. *)

Definition bit (b : bool) : ascii := if b then "1"%char else "0"%char.

Definition unbit (c : ascii) : option bool :=
  if Ascii.eqb c "1" then Some true
  else if Ascii.eqb c "0" then Some false
  else None.

Definition encode_byte (a : ascii) (rest : string) : string :=
  match a with
  | Ascii b0 b1 b2 b3 b4 b5 b6 b7 =>
      String (bit b0) (String (bit b1) (String (bit b2) (String (bit b3)
      (String (bit b4) (String (bit b5) (String (bit b6) (String (bit b7)
      rest)))))))
  end.

Fixpoint encode (s : string) : string :=
  match s with
  | EmptyString => EmptyString
  | String a rest => encode_byte a (encode rest)
  end.

Fixpoint decode (s : string) : option string :=
  match s with
  | EmptyString => Some EmptyString
  | String c0 (String c1 (String c2 (String c3
    (String c4 (String c5 (String c6 (String c7 rest))))))) =>
      match unbit c0, unbit c1, unbit c2, unbit c3,
            unbit c4, unbit c5, unbit c6, unbit c7, decode rest with
      | Some b0, Some b1, Some b2, Some b3,
        Some b4, Some b5, Some b6, Some b7, Some r =>
          Some (String (Ascii b0 b1 b2 b3 b4 b5 b6 b7) r)
      | _, _, _, _, _, _, _, _, _ => None
      end
  | _ => None
  end.

Fixpoint encode_positive (p : positive) : string :=
  match p with
  | xH => "H"
  | xO q => String "O" (encode_positive q)
  | xI q => String "I" (encode_positive q)
  end.

Fixpoint decode_positive (s : string) : option positive :=
  match s with
  | EmptyString => None
  | String c rest =>
      if Ascii.eqb c "H" then (if Js.is_empty rest then Some xH else None)
      else if Ascii.eqb c "O" then option_map xO (decode_positive rest)
      else if Ascii.eqb c "I" then option_map xI (decode_positive rest)
      else None
  end.

Definition encode_Z (z : Z) : string :=
  match z with
  | Z0 => "Z"
  | Zpos p => String "P" (encode_positive p)
  | Zneg p => String "N" (encode_positive p)
  end.

Definition decode_Z (s : string) : option Z :=
  match s with
  | EmptyString => None
  | String c rest =>
      if Ascii.eqb c "Z" then (if Js.is_empty rest then Some Z0 else None)
      else if Ascii.eqb c "P" then option_map Zpos (decode_positive rest)
      else if Ascii.eqb c "N" then option_map Zneg (decode_positive rest)
      else None
  end.

Definition encode_id (i : option Z) : string :=
  match i with
  | None => "U"
  | Some z => String "S" (encode_Z z)
  end.

Definition decode_id (s : string) : option (option Z) :=
  match s with
  | EmptyString => None
  | String c rest =>
      if Ascii.eqb c "U" then (if Js.is_empty rest then Some None else None)
      else if Ascii.eqb c "S" then option_map Some (decode_Z rest)
      else None
  end.

(** *** Tokens

    Four dot-separated fields: the id claim, the email claim, the expiry and
    the key that signed. *)

Definition sign (payload : claims) (secret : string) (expiresIn iat : Z) : string :=
  Js.join "." [ encode_id (claim_id payload);
                encode (claim_email payload);
                encode_Z (iat + expiresIn);
                encode secret ].

Definition malformed : jwt_error := JsonWebTokenError "jwt malformed".

Definition verify (token secret : string) (clock : Z) : result jwt_error claims :=
  if Js.contains " " token then Err malformed
  else
    match Js.split "." token with
    | [i; e; x; k] =>
        match decode_id i, decode e, decode_Z x, decode k with
        | Some id, Some email, Some exp, Some key =>
            if negb (String.eqb key secret)
            then Err (JsonWebTokenError "invalid signature")
            else if Z.leb exp clock then Err TokenExpiredError
            else Ok {| claim_id := id; claim_email := email |}
        | _, _, _, _ => Err malformed
        end
    | _ => Err malformed
    end.

(** *** Digests: the salt, a separator and the data. *)

Fixpoint ends_with (suffix s : string) : bool :=
  String.eqb s suffix ||
  match s with
  | EmptyString => false
  | String _ rest => ends_with suffix rest
  end.

Definition hash (data : string) (rounds : Z) (salt : string) : string :=
  salt ++ String "$" data.

Definition compare (data digest : string) : bool :=
  ends_with (String "$" data) digest.

End Reference.

(** ** Vocabulary of the properties *)

(** The mail a registration hands to the transport, given the token of its
    link. *)
Definition verification_mail (cfg : config) (s : server) (req : register_body)
    (token : string) : mail :=
  match s with
  | index_js =>
      {| mail_from := EMAIL_USER cfg;
         mail_to := js_string (reg_email req);
         mail_subject := "Verify your email";
         mail_html := IndexJs.verification_html (reg_username req)
                        (IndexJs.verifyLink cfg token) |}
  | api_index_js =>
      {| mail_from := EMAIL_USER cfg;
         mail_to := js_string (reg_email req);
         mail_subject := "Verify your email";
         mail_html := ApiIndexJs.verification_html (ApiIndexJs.verifyLink cfg token) |}
  end.

(** The table holds an account for [email] and it is not verified. *)
Definition creates_unverified_account (email : string) (db : database) : Prop :=
  exists u,
    findByEmail email db = Some u /\ user_email u = email /\ user_verified u = false.

(** The log holds exactly one mail, the verification mail, and the token of
    its link decodes under the signing secret to the registered email for the
    whole day that follows. *)
Definition delivers_verification_link {jwt : JsonWebToken} (cfg : config)
    (s : server) (env : environment) (req : register_body) (log : list event)
    : Prop :=
  exists token,
    mails log = [verification_mail cfg s req token]
    /\ forall clock,
         now env <= clock < now env + one_day ->
         exists decoded,
           jwt_verify token (JWT_SECRET cfg) clock = Ok decoded
           /\ claim_email decoded = js_string (reg_email req).

(** The answer of each server to a registration it refuses to look at. *)
Definition validation_error (s : server) : response :=
  match s with
  | index_js => {| status := 400; body := JsonError "Email and password required" |}
  | api_index_js => {| status := 400; body := JsonError "Missing fields" |}
  end.

(** The answer to a registration that hits a UNIQUE column: a fixed text in
    src/index.js, the driver's duplicate-entry message in src/api/index.js. *)
Definition duplicate_conflict (s : server) (res : response) : Prop :=
  match s with
  | index_js =>
      res = {| status := 400; body := JsonError "User or email already exists" |}
  | api_index_js =>
      exists entry key,
        res = {| status := 400;
                 body := JsonError (err_message (duplicate_entry entry key)) |}
  end.

(** The answer of each server to a verification that went through. *)
Definition email_verified (s : server) : response :=
  match s with
  | index_js => {| status := 200; body := Send IndexJs.verified_page |}
  | api_index_js =>
      {| status := 200; body := Send "Email verified! You can now log in." |}
  end.

Definition email_not_found : response :=
  {| status := 404; body := Send "Email not found" |}.

(** The answer of each server to a login for an unverified account. *)
Definition email_not_verified (s : server) : response :=
  match s with
  | index_js => {| status := 403; body := JsonError "Email not verified" |}
  | api_index_js => {| status := 400; body := JsonError "Email not verified" |}
  end.

Definition invalid_credentials : response :=
  {| status := 400; body := JsonError "Invalid credentials" |}.

(** The claims of a session token for an account. *)
Definition session_claims (u : user) : claims :=
  {| claim_id := Some (user_id u); claim_email := user_email u |}.

Definition database_error : response :=
  {| status := 500; body := JsonError "Database error" |}.

(** The answers of each server's middleware: no token, and a token that does
    not verify. *)
Definition unauthorized (s : server) : response :=
  match s with
  | index_js => {| status := 401; body := JsonError "Access denied" |}
  | api_index_js => {| status := 401; body := StatusText |}
  end.

Definition forbidden (s : server) : response :=
  match s with
  | index_js => {| status := 403; body := JsonError "Invalid token" |}
  | api_index_js => {| status := 403; body := StatusText |}
  end.

(** The header: a scheme word, a space and the credentials. *)
Definition header (scheme credentials : string) : Js.value :=
  Some (scheme ++ String " " credentials).

(** ** Concrete data for the examples *)

Definition example_config : config :=
  {| JWT_SECRET := "s3cr3t";
     EMAIL_USER := "noreply@jixify.example";
     BASE_URL := "http://localhost:3000";
     BASE_URL_PROD := "https://jixify.example/" |}.

Definition alice : register_body :=
  {| reg_username := Some "alice";
     reg_email := Some "a@x.com";
     reg_password := Some "secret" |}.

(** A registration with email and password and no username. *)
Definition anonymous : register_body :=
  {| reg_username := None;
     reg_email := Some "a@x.com";
     reg_password := Some "secret" |}.

(** A registration without an email. *)
Definition nameless : register_body :=
  {| reg_username := Some "carol";
     reg_email := None;
     reg_password := Some "secret" |}.

(** Somebody else registers with alice's email. *)
Definition mallory : register_body :=
  {| reg_username := Some "mallory";
     reg_email := Some "a@x.com";
     reg_password := Some "letmein" |}.

(** A registration with a fresh email and bob's username. *)
Definition second_bob : register_body :=
  {| reg_username := Some "bob";
     reg_email := Some "a@x.com";
     reg_password := Some "secret" |}.

(** A table with one unverified account, bob's. *)
Definition bobs_table : database :=
  {| users_tbl :=
       [ {| user_id := 1;
            user_username := Some "bob";
            user_email := "bob@x.com";
            user_password := "pepper$hunter2";
            user_verified := false;
            user_created_at := Some 100 |} ];
     auto_increment := 2 |}.

(** Bob logs in with the password bob registered with. *)
Definition bob_login : login_body :=
  {| login_email := Some "bob@x.com"; login_password := Some "hunter2" |}.

Definition alice_login : login_body :=
  {| login_email := Some "a@x.com"; login_password := Some "secret" |}.

Definition alice_session : claims :=
  {| claim_id := Some 1; claim_email := "a@x.com" |}.

(** A verification token for an address nobody registered. *)
Definition ghost_token : string :=
  Reference.sign {| claim_id := None; claim_email := "ghost@x.com" |}
    "s3cr3t" one_day 1000.

Definition bob_token : string :=
  Reference.sign {| claim_id := None; claim_email := "bob@x.com" |}
    "s3cr3t" one_day 1000.

(** The token of the link mailed to alice, and a session token of hers. *)
Definition alice_token : string :=
  Reference.sign {| claim_id := None; claim_email := "a@x.com" |}
    "s3cr3t" one_day 1000.

Definition alice_session_token : string :=
  Reference.sign alice_session "s3cr3t" one_hour 3000.

(** The table once alice has registered and followed the link. *)
Definition alice_verified : database :=
  {| users_tbl :=
       [ {| user_id := 1;
            user_username := Some "alice";
            user_email := "a@x.com";
            user_password := "pepper$secret";
            user_verified := true;
            user_created_at := Some 1000 |} ];
     auto_increment := 2 |}.

(** An environment in which only the mail transport fails. *)
Definition mail_down : environment :=
  {| now := 1000; salt := "pepper"; bcrypt_failure := None;
     query_failure := None;
     mail_failure := Some "connect ETIMEDOUT smtp.gmail.com:465" |}.

(** An environment in which only the database driver fails. *)
Definition database_down : environment :=
  {| now := 1000; salt := "pepper"; bcrypt_failure := None;
     query_failure :=
       Some {| err_code := "ECONNREFUSED";
               err_message := "connect ECONNREFUSED 10.0.0.12:3306" |};
     mail_failure := None |}.

(** * Facts *)

(** ** Strings *)

Lemma contains_append (c : ascii) (a b : string) :
  Js.contains c (a ++ b) = Js.contains c a || Js.contains c b.
Proof.
  induction a as [|d a IH]; cbn [append Js.contains]; [reflexivity|].
  destruct (Ascii.eqb d c); [reflexivity | exact IH].
Qed.

Lemma split_word (c : ascii) (w : string) :
  Js.contains c w = false -> Js.split c w = [w].
Proof.
  induction w as [|d w IH]; cbn [Js.contains Js.split]; [reflexivity|].
  destruct (Ascii.eqb d c); [discriminate|].
  intros Hw. rewrite (IH Hw). reflexivity.
Qed.

Lemma split_append (c : ascii) (w rest : string) :
  Js.contains c w = false ->
  Js.split c (w ++ String c rest) = w :: Js.split c rest.
Proof.
  induction w as [|d w IH]; cbn [append Js.contains Js.split].
  - intros _. rewrite Ascii.eqb_refl. reflexivity.
  - destruct (Ascii.eqb d c); [discriminate|].
    intros Hw. rewrite (IH Hw). reflexivity.
Qed.

Lemma truthy_string (v : Js.value) :
  Js.truthy v = true ->
  exists s, v = Some s /\ Js.is_empty s = false /\ js_string v = s.
Proof.
  destruct v as [s|]; cbn; [|discriminate].
  intros H. exists s. destruct (Js.is_empty s); [discriminate|auto].
Qed.

Lemma header_not_empty (scheme credentials : string) :
  Js.is_empty (scheme ++ String " " credentials) = false.
Proof. destruct scheme; reflexivity. Qed.

Lemma second_word (scheme credentials : string) :
  Js.contains " " scheme = false ->
  Js.contains " " credentials = false ->
  Js.index (Js.split " " (scheme ++ String " " credentials)) 1 = Some credentials.
Proof.
  intros Hs Hc. rewrite (split_append _ _ _ Hs), (split_word _ _ Hc). reflexivity.
Qed.

Lemma single_word (word : string) :
  Js.contains " " word = false ->
  Js.truthy (Js.and_then (Some word) (fun h => Js.index (Js.split " " h) 1)) = false.
Proof.
  intros Hw. unfold Js.and_then. destruct (Js.is_empty word) eqn:He.
  - cbn. rewrite He. reflexivity.
  - rewrite (split_word _ _ Hw). reflexivity.
Qed.

(** ** The reference implementations satisfy the interfaces *)

Lemma unbit_bit (b : bool) : Reference.unbit (Reference.bit b) = Some b.
Proof. destruct b; reflexivity. Qed.

Lemma decode_encode (s : string) :
  Reference.decode (Reference.encode s) = Some s.
Proof.
  induction s as [|a s IH]; [reflexivity|].
  destruct a as [b0 b1 b2 b3 b4 b5 b6 b7].
  cbn [Reference.encode Reference.encode_byte Reference.decode].
  rewrite !unbit_bit, IH. reflexivity.
Qed.

Lemma decode_encode_positive (p : positive) :
  Reference.decode_positive (Reference.encode_positive p) = Some p.
Proof.
  induction p as [p IH|p IH|]; cbn; try rewrite IH; reflexivity.
Qed.

Lemma decode_encode_Z (z : Z) :
  Reference.decode_Z (Reference.encode_Z z) = Some z.
Proof.
  destruct z; cbn; try rewrite decode_encode_positive; reflexivity.
Qed.

Lemma decode_encode_id (i : option Z) :
  Reference.decode_id (Reference.encode_id i) = Some i.
Proof.
  destruct i; cbn; try rewrite decode_encode_Z; reflexivity.
Qed.

(** The separators of a token and of a header never occur in a field. *)
Definition separator (c : ascii) : Prop := c = " "%char \/ c = "."%char.

Lemma contains_encode_byte (c : ascii) (a : ascii) (rest : string) :
  separator c ->
  Js.contains c (Reference.encode_byte a rest) = Js.contains c rest.
Proof.
  intros [-> | ->]; destruct a as [[] [] [] [] [] [] [] []]; reflexivity.
Qed.

Lemma contains_encode (c : ascii) (s : string) :
  separator c -> Js.contains c (Reference.encode s) = false.
Proof.
  intros Hc. induction s as [|a s IH]; [reflexivity|].
  cbn [Reference.encode]. rewrite contains_encode_byte; assumption.
Qed.

Lemma contains_encode_positive (c : ascii) (p : positive) :
  separator c -> Js.contains c (Reference.encode_positive p) = false.
Proof.
  intros [-> | ->]; induction p; cbn; auto.
Qed.

Lemma contains_encode_Z (c : ascii) (z : Z) :
  separator c -> Js.contains c (Reference.encode_Z z) = false.
Proof.
  intros Hc. destruct z; cbn [Reference.encode_Z Js.contains].
  - destruct Hc as [-> | ->]; reflexivity.
  - rewrite contains_encode_positive by assumption.
    destruct Hc as [-> | ->]; reflexivity.
  - rewrite contains_encode_positive by assumption.
    destruct Hc as [-> | ->]; reflexivity.
Qed.

Lemma contains_encode_id (c : ascii) (i : option Z) :
  separator c -> Js.contains c (Reference.encode_id i) = false.
Proof.
  intros Hc. destruct i; cbn [Reference.encode_id Js.contains].
  - rewrite contains_encode_Z by assumption.
    destruct Hc as [-> | ->]; reflexivity.
  - destruct Hc as [-> | ->]; reflexivity.
Qed.

Lemma reference_verify_sign payload secret expiresIn iat clock :
  iat <= clock < iat + expiresIn ->
  Reference.verify (Reference.sign payload secret expiresIn iat) secret clock
  = Ok payload.
Proof.
  intros Hclock. unfold Reference.verify, Reference.sign. cbn [Js.join].
  assert (Hsp : separator " ") by (left; reflexivity).
  assert (Hdot : separator ".") by (right; reflexivity).
  repeat (rewrite contains_append; cbn [Js.contains Ascii.eqb Bool.eqb]).
  rewrite contains_encode_id, !contains_encode, contains_encode_Z by assumption.
  cbn [orb].
  rewrite !split_append
    by (apply contains_encode_id || apply contains_encode
        || apply contains_encode_Z; assumption).
  rewrite split_word by (apply contains_encode; assumption).
  rewrite decode_encode_id, !decode_encode, decode_encode_Z.
  rewrite String.eqb_refl. cbn [negb].
  replace (Z.leb (iat + expiresIn) clock) with false
    by (symmetry; apply Z.leb_gt; lia).
  destruct payload; reflexivity.
Qed.

Lemma reference_verify_compact token secret clock payload :
  Reference.verify token secret clock = Ok payload ->
  Js.is_empty token = false /\ Js.contains " " token = false.
Proof.
  unfold Reference.verify.
  destruct (Js.contains " " token); [discriminate|].
  destruct token; [discriminate|]. intros _. split; reflexivity.
Qed.

Lemma ends_with_append (suffix s : string) :
  Reference.ends_with suffix (s ++ suffix) = true.
Proof.
  induction s as [|a s IH].
  - destruct suffix; cbn; rewrite ?String.eqb_refl, ?Ascii.eqb_refl; reflexivity.
  - cbn [append Reference.ends_with]. rewrite IH. apply orb_true_r.
Qed.

Lemma reference_compare_hash data rounds salt :
  Reference.compare data (Reference.hash data rounds salt) = true.
Proof. apply ends_with_append. Qed.

#[export] Instance reference_jwt : JsonWebToken := {|
  jwt_sign := Reference.sign;
  jwt_verify := Reference.verify;
  jwt_verify_sign := reference_verify_sign;
  jwt_verify_compact := reference_verify_compact
|}.

#[export] Instance reference_bcrypt : Bcrypt := {|
  bcrypt_hash := Reference.hash;
  bcrypt_compare := Reference.compare;
  bcrypt_compare_hash := reference_compare_hash
|}.

(** ** The table *)

Lemma filter_none {A : Type} (f : A -> bool) (l : list A) :
  existsb f l = false -> filter f l = [].
Proof.
  induction l as [|a l IH]; cbn; [reflexivity|].
  destruct (f a); cbn; [discriminate | exact IH].
Qed.

Lemma filter_some {A : Type} (f : A -> bool) (l : list A) :
  existsb f l = true -> exists a rest, filter f l = a :: rest /\ f a = true.
Proof.
  induction l as [|a l IH]; cbn; [discriminate|].
  destruct (f a) eqn:Hfa; cbn.
  - intros _. exists a, (filter f l). auto.
  - exact IH.
Qed.

Lemma findByEmail_none (email : string) (db : database) :
  email_taken email db = false -> findByEmail email db = None.
Proof.
  intros H. unfold findByEmail, select_by_email.
  rewrite (filter_none _ _ H). reflexivity.
Qed.

Lemma findByEmail_some (email : string) (db : database) :
  email_taken email db = true ->
  exists u rest, select_by_email email db = u :: rest /\ user_email u = email.
Proof.
  intros H. destruct (filter_some _ _ H) as (u & rest & Hsel & Hu).
  exists u, rest. split; [exact Hsel|]. apply String.eqb_eq. exact Hu.
Qed.

Lemma findByEmail_select (email : string) (db : database) (u : user) :
  findByEmail email db = Some u ->
  exists rest, select_by_email email db = u :: rest.
Proof.
  unfold findByEmail. destruct (select_by_email email db) as [|v rest]; cbn.
  - discriminate.
  - intros H. inversion H. subst. exists rest. reflexivity.
Qed.

Lemma select_taken (email : string) (db : database) (u : user) (rest : list user) :
  select_by_email email db = u :: rest -> email_taken email db = true.
Proof.
  unfold select_by_email, email_taken. intros H.
  destruct (existsb (has_email email) (users_tbl db)) eqn:He; [reflexivity|].
  rewrite (filter_none _ _ He) in H. discriminate.
Qed.

Lemma insert_user_fresh created username email hashed db :
  username_taken username db = false ->
  email_taken email db = false ->
  insert_user created username email hashed db
  = Ok (append_user created username email hashed db).
Proof.
  unfold insert_user, username_taken, email_taken.
  destruct username as [n|]; intros Hn He; rewrite ?Hn, He; reflexivity.
Qed.

Lemma insert_user_taken created username email hashed db :
  email_taken email db = true ->
  exists entry key,
    insert_user created username email hashed db = Err (duplicate_entry entry key).
Proof.
  unfold insert_user, email_taken. intros He. rewrite He.
  destruct username as [n|].
  - destruct (existsb (has_username n) (users_tbl db)); eauto.
  - eauto.
Qed.

Lemma insert_user_result created username email hashed db db' :
  insert_user created username email hashed db = Ok db' ->
  db' = append_user created username email hashed db
  /\ email_taken email db = false.
Proof.
  unfold insert_user, email_taken.
  destruct username as [n|];
    repeat match goal with
           | |- context [if ?b then _ else _] => destruct b
           end; intros H; inversion H; auto.
Qed.

Lemma email_taken_append created username email hashed db :
  email_taken email (append_user created username email hashed db) = true.
Proof.
  unfold email_taken, append_user. cbn [users_tbl].
  rewrite existsb_app. cbn [existsb]. unfold has_email at 2. cbn [user_email].
  rewrite String.eqb_refl. apply orb_true_r.
Qed.

Lemma findByEmail_append created username email hashed db :
  email_taken email db = false ->
  findByEmail email (append_user created username email hashed db)
  = Some {| user_id := auto_increment db;
            user_username := username;
            user_email := email;
            user_password := hashed;
            user_verified := false;
            user_created_at := created |}.
Proof.
  intros H. unfold findByEmail, select_by_email, append_user. cbn [users_tbl].
  rewrite filter_app, (filter_none _ _ H). cbn.
  unfold has_email. cbn [user_email]. rewrite String.eqb_refl. reflexivity.
Qed.

Lemma has_email_set_verified (email : string) (u : user) :
  has_email email (if has_email email u then set_verified u else u)
  = has_email email u.
Proof. destruct (has_email email u) eqn:H; [|exact H]. exact H. Qed.

Lemma select_update (email : string) (db : database) :
  select_by_email email (fst (update_verified email db))
  = map set_verified (select_by_email email db).
Proof.
  unfold select_by_email, update_verified. cbn [fst users_tbl].
  induction (users_tbl db) as [|u l IH]; [reflexivity|].
  cbn [map filter]. rewrite has_email_set_verified.
  destruct (has_email email u); cbn [map]; rewrite IH; reflexivity.
Qed.

Lemma findByEmail_update (email : string) (db : database) :
  findByEmail email (fst (update_verified email db))
  = option_map set_verified (findByEmail email db).
Proof.
  unfold findByEmail. rewrite select_update.
  destruct (select_by_email email db); reflexivity.
Qed.

Lemma affected_rows_zero (email : string) (db : database) :
  Z.eqb (snd (update_verified email db)) 0 = negb (email_taken email db).
Proof.
  unfold update_verified, email_taken. cbn [snd].
  destruct (existsb (has_email email) (users_tbl db)) eqn:He.
  - destruct (filter_some _ _ He) as (u & rest & Hf & _). rewrite Hf.
    cbn [List.length negb]. apply Z.eqb_neq. lia.
  - rewrite (filter_none _ _ He). reflexivity.
Qed.

Lemma email_taken_update (email other : string) (db : database) :
  email_taken other (fst (update_verified email db)) = email_taken other db.
Proof.
  unfold email_taken, update_verified. cbn [fst users_tbl].
  induction (users_tbl db) as [|u l IH]; [reflexivity|].
  cbn [map existsb]. rewrite IH. f_equal.
  destruct (has_email email u); reflexivity.
Qed.

Lemma update_verified_twice (email : string) (db : database) :
  fst (update_verified email (fst (update_verified email db)))
  = fst (update_verified email db).
Proof.
  unfold update_verified. cbn [fst users_tbl auto_increment]. f_equal.
  rewrite map_map. apply map_ext. intros u.
  destruct (has_email email u) eqn:H; [|rewrite H; reflexivity].
  destruct (has_email email (set_verified u)); reflexivity.
Qed.

(** ** Case analysis of the handlers *)

(** Case analysis of a handler's outcome mentioned in a hypothesis. *)
Ltac branches H :=
  repeat match type of H with
         | context [if ?b then _ else _] => destruct b
         | context [match ?x with _ => _ end] => destruct x
         end;
  cbn [out_log out_res body In] in H; try discriminate.

Ltac members H :=
  repeat match type of H with
         | _ \/ _ => destruct H as [H|H]
         | False => contradiction
         end; try discriminate.

(** The branches of a login, down to the row and its flag. *)
Ltac login_branches req env db :=
  destruct (negb (Js.truthy (login_email req)) || negb (Js.truthy (login_password req)));
    [cbn in *; try contradiction; discriminate|];
  destruct (query_failure env); [cbn in *; try contradiction; discriminate|];
  let u := fresh "u" in
  let rest := fresh "rest" in
  destruct (select_by_email (js_string (login_email req)) db) as [|u rest];
    [cbn in *; try contradiction; discriminate|];
  exists u; destruct (user_verified u); cbn [negb] in *;
    [|cbn in *; try contradiction; discriminate];
  destruct (bcrypt_compare _ _); cbn [negb out_log In out_res body] in *;
    [|try contradiction; discriminate].

(** ** Registration *)

Section RegistrationFacts.
Context {jwt : JsonWebToken} {bcrypt : Bcrypt}.
Variable cfg : config.

Lemma register_fresh (s : server) (env : environment) (db : database)
    (req : register_body) :
  required_fields s req = true ->
  email_taken (js_string (reg_email req)) db = false ->
  username_taken (stored_username s req) db = false ->
  bcrypt_failure env = None ->
  query_failure env = None ->
  let email := js_string (reg_email req) in
  let payload := {| claim_id := None; claim_email := email |} in
  let token := jwt_sign payload (JWT_SECRET cfg) one_day (now env) in
  let out := register cfg s env db req in
  out_db out
  = append_user (match s with index_js => Some (now env) | api_index_js => None end)
      (stored_username s req) email
      (bcrypt_hash (js_string (reg_password req)) 10 (salt env)) db
  /\ out_log out
     = [Signed payload one_day token; SendMail (verification_mail cfg s req token)]
  /\ (mail_failure env = None -> out_res out = registered s).
Proof.
  intros Hreq Hemail Huser Hhash Hquery. cbv zeta.
  destruct s; cbn [register required_fields stored_username] in *.
  - apply andb_prop in Hreq. destruct Hreq as [He Hp].
    unfold IndexJs.register. rewrite He, Hp, Hhash. cbn [negb orb].
    unfold query. rewrite Hquery.
    rewrite insert_user_fresh by assumption.
    unfold IndexJs.signJwt.
    destruct (mail_failure env); cbn [out_db out_log out_res];
      repeat split; try reflexivity. discriminate.
  - apply andb_prop in Hreq. destruct Hreq as [Hreq Hp].
    apply andb_prop in Hreq. destruct Hreq as [Hu He].
    unfold ApiIndexJs.register. rewrite Hu, He, Hp, Hhash. cbn [negb orb].
    unfold query. rewrite Hquery.
    rewrite insert_user_fresh by assumption.
    cbn [out_db out_log out_res]. repeat split; reflexivity.
Qed.

Lemma register_missing_field (s : server) (env : environment) (db : database)
    (req : register_body) :
  required_fields s req = false ->
  register cfg s env db req = answer db (validation_error s).
Proof.
  destruct s; cbn [required_fields register];
    [unfold IndexJs.register | unfold ApiIndexJs.register];
    destruct (Js.truthy (reg_email req)), (Js.truthy (reg_password req));
    try destruct (Js.truthy (reg_username req)); cbn; intros H;
    try discriminate; reflexivity.
Qed.

(** src/index.js never answers the validation error to a request that
    carries an email and a password. *)
Lemma index_js_register_validated (env : environment) (db : database)
    (req : register_body) :
  Js.truthy (reg_email req) = true ->
  Js.truthy (reg_password req) = true ->
  out_res (IndexJs.register cfg env db req) <> validation_error index_js.
Proof.
  intros He Hp. unfold IndexJs.register, reply, validation_error.
  rewrite He, Hp. cbn [negb orb]. intros H. branches H.
Qed.

Lemma register_duplicate (s : server) (env : environment) (db : database)
    (req : register_body) :
  required_fields s req = true ->
  bcrypt_failure env = None ->
  query_failure env = None ->
  email_taken (js_string (reg_email req)) db = true ->
  duplicate_conflict s (out_res (register cfg s env db req))
  /\ out_db (register cfg s env db req) = db
  /\ out_log (register cfg s env db req) = [].
Proof.
  intros Hreq Hhash Hquery Htaken.
  destruct s; cbn [required_fields register duplicate_conflict] in *.
  - apply andb_prop in Hreq. destruct Hreq as [He Hp].
    unfold IndexJs.register. rewrite He, Hp, Hhash. cbn [negb orb].
    unfold query. rewrite Hquery.
    destruct (insert_user_taken (Some (now env)) (Js.or (reg_username req) None)
                (js_string (reg_email req))
                (bcrypt_hash (js_string (reg_password req)) 10 (salt env)) db Htaken)
      as (entry & key & ->).
    repeat split; reflexivity.
  - apply andb_prop in Hreq. destruct Hreq as [Hreq Hp].
    apply andb_prop in Hreq. destruct Hreq as [Hu He].
    unfold ApiIndexJs.register. rewrite Hu, He, Hp, Hhash. cbn [negb orb].
    unfold query. rewrite Hquery.
    destruct (insert_user_taken None (reg_username req)
                (js_string (reg_email req))
                (bcrypt_hash (js_string (reg_password req)) 10 (salt env)) db Htaken)
      as (entry & key & ->).
    repeat split; try reflexivity. exists entry, key. reflexivity.
Qed.

(** A registration that was answered as completed left a row for its email. *)
Lemma registered_email_taken (s : server) (env : environment) (db : database)
    (req : register_body) :
  out_res (register cfg s env db req) = registered s ->
  email_taken (js_string (reg_email req)) (out_db (register cfg s env db req)) = true.
Proof.
  destruct s; cbn [register registered];
    [unfold IndexJs.register | unfold ApiIndexJs.register]; unfold reply, query.
  - destruct (negb (Js.truthy (reg_email req)) || negb (Js.truthy (reg_password req)));
      [discriminate|].
    destruct (bcrypt_failure env); [discriminate|].
    destruct (query_failure env); [destruct (String.eqb _ _); discriminate|].
    destruct (insert_user _ _ _ _ db) as [db'|err] eqn:Hins;
      [|destruct (String.eqb _ _); discriminate].
    apply insert_user_result in Hins. destruct Hins as [-> _].
    destruct (mail_failure env); [discriminate|].
    intros _. apply email_taken_append.
  - destruct (negb (Js.truthy (reg_username req)) || negb (Js.truthy (reg_email req))
              || negb (Js.truthy (reg_password req))); [discriminate|].
    destruct (bcrypt_failure env); [discriminate|].
    destruct (query_failure env); [discriminate|].
    destruct (insert_user _ _ _ _ db) as [db'|err] eqn:Hins; [|discriminate].
    apply insert_user_result in Hins. destruct Hins as [-> _].
    intros _. apply email_taken_append.
Qed.

End RegistrationFacts.

(** ** Verification of an email *)

Section VerificationFacts.
Context {jwt : JsonWebToken}.
Variable cfg : config.

(** A token that validates is marked in the table, whatever the server; the
    servers differ in what they answer when no row matched. *)
Lemma verify_email_valid (s : server) (env : environment) (db : database)
    (token : string) (decoded : claims) :
  jwt_verify token (JWT_SECRET cfg) (now env) = Ok decoded ->
  query_failure env = None ->
  verify_email cfg s env db (Some token)
  = answer (fst (update_verified (claim_email decoded) db))
      (match s with
       | index_js =>
           if email_taken (claim_email decoded) db
           then email_verified index_js else email_not_found
       | api_index_js => email_verified api_index_js
       end).
Proof.
  intros Hverify Hquery.
  destruct (jwt_verify_compact _ _ _ _ Hverify) as [Hne _].
  destruct s; cbn [verify_email].
  - unfold IndexJs.verify_email. cbn [Js.truthy js_string].
    rewrite Hne, Hverify. cbn [negb]. unfold query. rewrite Hquery.
    destruct (update_verified (claim_email decoded) db) as [db' n] eqn:Hupd.
    pose proof (affected_rows_zero (claim_email decoded) db) as Hn.
    rewrite Hupd in Hn. cbn [snd fst] in *. rewrite Hn.
    destruct (email_taken (claim_email decoded) db); reflexivity.
  - unfold ApiIndexJs.verify_email. cbn [Js.truthy js_string].
    rewrite Hne, Hverify. cbn [negb]. unfold query. rewrite Hquery.
    destruct (update_verified (claim_email decoded) db) as [db' n].
    reflexivity.
Qed.

(** src/index.js does what C2 says: success and a verified account when the
    account exists, the not-found answer otherwise. *)
Lemma index_js_verify_email (env : environment) (db : database)
    (token : string) (decoded : claims) :
  jwt_verify token (JWT_SECRET cfg) (now env) = Ok decoded ->
  query_failure env = None ->
  (email_taken (claim_email decoded) db = true ->
   out_res (IndexJs.verify_email cfg env db (Some token)) = email_verified index_js
   /\ exists u,
        findByEmail (claim_email decoded)
          (out_db (IndexJs.verify_email cfg env db (Some token))) = Some u
        /\ user_verified u = true)
  /\ (email_taken (claim_email decoded) db = false ->
      out_res (IndexJs.verify_email cfg env db (Some token)) = email_not_found).
Proof.
  intros Hverify Hquery.
  pose proof (verify_email_valid index_js env db token decoded Hverify Hquery) as H.
  cbn [verify_email] in H. rewrite H. split; intros Htaken; rewrite Htaken.
  - split; [reflexivity|]. cbn [answer out_db]. rewrite findByEmail_update.
    destruct (findByEmail_some _ _ Htaken) as (u & rest & Hsel & _).
    unfold findByEmail. rewrite Hsel. cbn. eexists. split; reflexivity.
  - reflexivity.
Qed.

End VerificationFacts.

(** ** Login *)

Section LoginFacts.
Context {jwt : JsonWebToken} {bcrypt : Bcrypt}.
Variable cfg : config.

(** A login that gets as far as the row of its email: the answer depends on
    the row's verified flag first and on the password second. *)
Lemma login_found (s : server) (env : environment) (db : database)
    (req : login_body) (u : user) :
  Js.truthy (login_email req) = true ->
  Js.truthy (login_password req) = true ->
  query_failure env = None ->
  findByEmail (js_string (login_email req)) db = Some u ->
  login cfg s env db req
  = if negb (user_verified u) then answer db (email_not_verified s)
    else if negb (bcrypt_compare (js_string (login_password req)) (user_password u))
    then answer db invalid_credentials
    else {| out_db := db;
            out_res :=
              {| status := 200;
                 body := JsonToken (jwt_sign (session_claims u) (JWT_SECRET cfg)
                                      one_hour (now env)) |};
            out_log :=
              [Signed (session_claims u) one_hour
                 (jwt_sign (session_claims u) (JWT_SECRET cfg) one_hour (now env))] |}.
Proof.
  intros He Hp Hq Hfind. destruct (findByEmail_select _ _ _ Hfind) as [rest Hsel].
  destruct s; cbn [login];
    [unfold IndexJs.login, IndexJs.signJwt | unfold ApiIndexJs.login];
    rewrite He, Hp; cbn [negb orb]; unfold query; rewrite Hq, Hsel;
    destruct (user_verified u); cbn [negb]; try reflexivity;
    destruct (bcrypt_compare _ _); reflexivity.
Qed.

(** Whatever the request and the table, a handler signs claims that carry an
    id only in a login, for the row of the login's email, and only when that
    row is verified. *)
Lemma signed_session (s : server) (env : environment) (db : database)
    (r : request) (payload : claims) (expiresIn : Z) (token : string) :
  In (Signed payload expiresIn token) (out_log (handle cfg s env db r)) ->
  claim_id payload <> None ->
  exists req u,
    r = Login req
    /\ findByEmail (js_string (login_email req)) db = Some u
    /\ user_verified u = true
    /\ payload = session_claims u
    /\ expiresIn = one_hour
    /\ out_res (handle cfg s env db r) = {| status := 200; body := JsonToken token |}.
Proof.
  intros Hin Hid.
  destruct r as [req|tok|req]; destruct s; cbn [handle register verify_email login] in *.
  - unfold IndexJs.register, reply in Hin.
    branches Hin; members Hin; inversion Hin; subst; cbn in Hid; congruence.
  - unfold ApiIndexJs.register, reply in Hin.
    branches Hin; members Hin; inversion Hin; subst; cbn in Hid; congruence.
  - unfold IndexJs.verify_email, reply in Hin. branches Hin; contradiction.
  - unfold ApiIndexJs.verify_email, reply in Hin. branches Hin; contradiction.
  - exists req. unfold IndexJs.login, IndexJs.signJwt, reply, query, findByEmail in *.
    login_branches req env db.
    destruct Hin as [Hin|[]]. inversion Hin. subst. repeat split; reflexivity.
  - exists req. unfold ApiIndexJs.login, reply, query, findByEmail in *.
    login_branches req env db.
    destruct Hin as [Hin|[]]. inversion Hin. subst. repeat split; reflexivity.
Qed.

(** A handler answers with a token only in a login for a verified row. *)
Lemma token_answer (s : server) (env : environment) (db : database)
    (r : request) (token : string) :
  body (out_res (handle cfg s env db r)) = JsonToken token ->
  exists req u,
    r = Login req
    /\ findByEmail (js_string (login_email req)) db = Some u
    /\ user_verified u = true
    /\ In (Signed (session_claims u) one_hour token)
         (out_log (handle cfg s env db r)).
Proof.
  intros Hin.
  destruct r as [req|tok|req]; destruct s; cbn [handle register verify_email login] in *.
  - unfold IndexJs.register, reply in Hin. branches Hin.
  - unfold ApiIndexJs.register, reply in Hin. branches Hin.
  - unfold IndexJs.verify_email, reply in Hin. branches Hin.
  - unfold ApiIndexJs.verify_email, reply in Hin. branches Hin.
  - exists req. unfold IndexJs.login, IndexJs.signJwt, reply, query, findByEmail in *.
    login_branches req env db.
    inversion Hin. subst. repeat split; try reflexivity. left. reflexivity.
  - exists req. unfold ApiIndexJs.login, reply, query, findByEmail in *.
    login_branches req env db.
    inversion Hin. subst. repeat split; try reflexivity. left. reflexivity.
Qed.

End LoginFacts.

(** ** Failures of the mail transport and of the database *)

Section FailureFacts.
Context {jwt : JsonWebToken} {bcrypt : Bcrypt}.
Variable cfg : config.

(** src/index.js answers a registration as completed only if the mail went
    out, and answers a failed delivery with a server error. *)
Lemma index_js_reports_mail_failure (env : environment) (db : database)
    (req : register_body) (failure : string) :
  mail_failure env = Some failure ->
  out_res (IndexJs.register cfg env db req) <> registered index_js
  /\ (mails (out_log (IndexJs.register cfg env db req)) <> [] ->
      out_res (IndexJs.register cfg env db req)
      = {| status := 500; body := JsonError "Failed to send verification email" |}).
Proof.
  intros Hmail. unfold IndexJs.register, reply, registered. rewrite Hmail.
  split.
  - intros H. branches H.
  - intros H.
    repeat match goal with
           | |- context [if ?b then _ else _] => destruct b
           | |- context [match ?x with _ => _ end] => destruct x
           end; cbn in H; try congruence; reflexivity.
Qed.

(** src/api/index.js does not read the outcome of the delivery. *)
Lemma api_register_ignores_mail_failure (env : environment) (db : database)
    (req : register_body) (failure : option string) :
  ApiIndexJs.register cfg
    {| now := now env; salt := salt env; bcrypt_failure := bcrypt_failure env;
       query_failure := query_failure env; mail_failure := failure |} db req
  = ApiIndexJs.register cfg env db req.
Proof. reflexivity. Qed.

(** src/index.js answers a failure of the driver with the same fixed server
    error in its three handlers, a duplicate entry aside; the table is left
    as it was and nothing is signed or mailed. *)
Lemma index_js_database_error (env : environment) (db : database)
    (err : db_error) :
  query_failure env = Some err ->
  (forall req,
     required_fields index_js req = true ->
     bcrypt_failure env = None ->
     String.eqb (err_code err) "ER_DUP_ENTRY" = false ->
     IndexJs.register cfg env db req = answer db database_error)
  /\ (forall token decoded,
        jwt_verify token (JWT_SECRET cfg) (now env) = Ok decoded ->
        IndexJs.verify_email cfg env db (Some token)
        = answer db {| status := 500; body := Send "Database error" |})
  /\ (forall req,
        Js.truthy (login_email req) = true ->
        Js.truthy (login_password req) = true ->
        IndexJs.login cfg env db req = answer db database_error).
Proof.
  intros Hquery. split; [|split].
  - intros req Hreq Hhash Hcode. cbn [required_fields] in Hreq.
    apply andb_prop in Hreq. destruct Hreq as [He Hp].
    unfold IndexJs.register, query. rewrite He, Hp, Hhash, Hquery, Hcode.
    reflexivity.
  - intros token decoded Hverify.
    destruct (jwt_verify_compact _ _ _ _ Hverify) as [Hne _].
    unfold IndexJs.verify_email, query. cbn [Js.truthy js_string].
    rewrite Hne, Hverify, Hquery. reflexivity.
  - intros req He Hp. unfold IndexJs.login, query.
    rewrite He, Hp, Hquery. reflexivity.
Qed.

(** src/api/index.js copies the driver's message into the answer of a
    registration and of a login. *)
Lemma api_database_error_message (env : environment) (db : database)
    (err : db_error) :
  query_failure env = Some err ->
  (forall req,
     required_fields api_index_js req = true ->
     bcrypt_failure env = None ->
     ApiIndexJs.register cfg env db req
     = answer db {| status := 400; body := JsonError (err_message err) |})
  /\ (forall req,
        Js.truthy (login_email req) = true ->
        Js.truthy (login_password req) = true ->
        ApiIndexJs.login cfg env db req
        = answer db {| status := 500; body := JsonError (err_message err) |}).
Proof.
  intros Hquery. split.
  - intros req Hreq Hhash. cbn [required_fields] in Hreq.
    apply andb_prop in Hreq. destruct Hreq as [Hreq Hp].
    apply andb_prop in Hreq. destruct Hreq as [Hu He].
    unfold ApiIndexJs.register, query. rewrite Hu, He, Hp, Hhash, Hquery.
    reflexivity.
  - intros req He Hp. unfold ApiIndexJs.login, query.
    rewrite He, Hp, Hquery. reflexivity.
Qed.

End FailureFacts.

(** * The properties *)

(** C1, amended.  A registration that carries the fields its server requires,
    with an email no account has and a username that is absent or that no
    account has, in an environment where bcrypt and the INSERT do not fail,
    leaves an unverified account for the email, makes exactly one delivery
    attempt, and the token of the delivered link decodes under the signing
    secret to the registered email until the day is over.  This holds for
    src/index.js and for src/api/index.js. *)
Theorem C1_register_unverified_account_and_one_mail
    {jwt : JsonWebToken} {bcrypt : Bcrypt} (cfg : config) (s : server)
    (env : environment) (db : database) (req : register_body) :
  required_fields s req = true ->
  email_taken (js_string (reg_email req)) db = false ->
  username_taken (stored_username s req) db = false ->
  bcrypt_failure env = None ->
  query_failure env = None ->
  creates_unverified_account (js_string (reg_email req))
    (out_db (register cfg s env db req))
  /\ delivers_verification_link cfg s env req
       (out_log (register cfg s env db req)).
Proof.
  intros Hreq Hemail Huser Hhash Hquery.
  destruct (register_fresh cfg s env db req Hreq Hemail Huser Hhash Hquery)
    as (Hdb & Hlog & _).
  split.
  - rewrite Hdb. eexists. split; [apply findByEmail_append; assumption|].
    split; reflexivity.
  - rewrite Hlog. eexists. split; [reflexivity|].
    intros clock Hclock. eexists. split; [apply jwt_verify_sign; exact Hclock|].
    reflexivity.
Qed.

Lemma C1_witness :
  creates_unverified_account "a@x.com"
    (out_db (register example_config index_js (calm 1000 "pepper")
               empty_database alice))
  /\ delivers_verification_link example_config index_js (calm 1000 "pepper")
       alice
       (out_log (register example_config index_js (calm 1000 "pepper")
                   empty_database alice)).
Proof.
  apply (C1_register_unverified_account_and_one_mail
           example_config index_js (calm 1000 "pepper") empty_database alice);
    reflexivity.
Defined.

(** C1 as stated fails: with a unique email and every required field present,
    a registration that reuses bob's username is answered with the duplicate
    conflict, no account is created for the email and no mail is attempted. *)
Lemma C1_counterexample :
  required_fields index_js second_bob = true
  /\ email_taken "a@x.com" bobs_table = false
  /\ out_res (register example_config index_js (calm 1000 "pepper")
                bobs_table second_bob)
     = {| status := 400; body := JsonError "User or email already exists" |}
  /\ ~ creates_unverified_account "a@x.com"
         (out_db (register example_config index_js (calm 1000 "pepper")
                    bobs_table second_bob))
  /\ ~ delivers_verification_link example_config index_js (calm 1000 "pepper")
         second_bob
         (out_log (register example_config index_js (calm 1000 "pepper")
                     bobs_table second_bob)).
Proof.
  repeat split; try reflexivity.
  - intros (u & Hfind & _). cbv in Hfind. discriminate.
  - intros (token & Hmails & _). cbv in Hmails. discriminate.
Qed.

(** C2 at the failing input.  The token validates and carries the email
    ghost@x.com, no account has that email, and src/api/index.js answers that
    the email is verified; src/index.js, on the same request, answers that
    the email was not found. *)
Theorem C2_api_verify_email_ignores_missing_account :
  jwt_verify ghost_token (JWT_SECRET example_config) 2000
  = Ok {| claim_id := None; claim_email := "ghost@x.com" |}
  /\ findByEmail "ghost@x.com" bobs_table = None
  /\ out_res (verify_email example_config api_index_js (calm 2000 "pepper")
                bobs_table (Some ghost_token))
     = {| status := 200; body := Send "Email verified! You can now log in." |}
  /\ out_res (verify_email example_config index_js (calm 2000 "pepper")
                bobs_table (Some ghost_token))
     = {| status := 404; body := Send "Email not found" |}.
Proof. repeat split; vm_compute; reflexivity. Qed.

(** C3.  While a token validates to the same claims and the UPDATE does not
    fail, verifying a second time with it answers success again, leaves the
    table as the first verification left it, with the account verified, and
    signs and mails nothing.  This holds for both servers. *)
Theorem C3_verify_email_idempotent
    {jwt : JsonWebToken} (cfg : config) (s : server)
    (env1 env2 : environment) (db : database) (token : string)
    (decoded : claims) :
  jwt_verify token (JWT_SECRET cfg) (now env1) = Ok decoded ->
  jwt_verify token (JWT_SECRET cfg) (now env2) = Ok decoded ->
  query_failure env1 = None ->
  query_failure env2 = None ->
  email_taken (claim_email decoded) db = true ->
  out_res (verify_email cfg s env1 db (Some token)) = email_verified s
  /\ out_res (verify_email cfg s env2
                (out_db (verify_email cfg s env1 db (Some token))) (Some token))
     = email_verified s
  /\ out_db (verify_email cfg s env2
               (out_db (verify_email cfg s env1 db (Some token))) (Some token))
     = out_db (verify_email cfg s env1 db (Some token))
  /\ out_log (verify_email cfg s env2
                (out_db (verify_email cfg s env1 db (Some token))) (Some token))
     = []
  /\ exists u,
       findByEmail (claim_email decoded)
         (out_db (verify_email cfg s env2
                    (out_db (verify_email cfg s env1 db (Some token)))
                    (Some token)))
       = Some u
       /\ user_verified u = true.
Proof.
  intros Hv1 Hv2 Hq1 Hq2 Htaken.
  rewrite (verify_email_valid cfg s env1 db token decoded Hv1 Hq1).
  cbn [answer out_db].
  rewrite (verify_email_valid cfg s env2 _ token decoded Hv2 Hq2).
  cbn [answer out_db out_res out_log].
  rewrite email_taken_update, Htaken, update_verified_twice.
  repeat split; try (destruct s; reflexivity).
  rewrite findByEmail_update.
  destruct (findByEmail_some _ _ Htaken) as (u & rest & Hsel & _).
  unfold findByEmail. rewrite Hsel. cbn. eexists. split; reflexivity.
Qed.

Lemma C3_witness :
  out_res (verify_email example_config index_js (calm 2000 "pepper")
             bobs_table (Some bob_token))
  = email_verified index_js
  /\ out_res (verify_email example_config index_js (calm 3000 "pepper")
                (out_db (verify_email example_config index_js (calm 2000 "pepper")
                           bobs_table (Some bob_token)))
                (Some bob_token))
     = email_verified index_js
  /\ out_db (verify_email example_config index_js (calm 3000 "pepper")
               (out_db (verify_email example_config index_js (calm 2000 "pepper")
                          bobs_table (Some bob_token)))
               (Some bob_token))
     = out_db (verify_email example_config index_js (calm 2000 "pepper")
                 bobs_table (Some bob_token))
  /\ out_log (verify_email example_config index_js (calm 3000 "pepper")
                (out_db (verify_email example_config index_js (calm 2000 "pepper")
                           bobs_table (Some bob_token)))
                (Some bob_token))
     = []
  /\ exists u,
       findByEmail "bob@x.com"
         (out_db (verify_email example_config index_js (calm 3000 "pepper")
                    (out_db (verify_email example_config index_js
                               (calm 2000 "pepper") bobs_table (Some bob_token)))
                    (Some bob_token)))
       = Some u
       /\ user_verified u = true.
Proof.
  apply (C3_verify_email_idempotent example_config index_js
           (calm 2000 "pepper") (calm 3000 "pepper") bobs_table bob_token
           {| claim_id := None; claim_email := "bob@x.com" |});
    vm_compute; reflexivity.
Defined.

(** C4.  When the row of the login's email is not verified, both servers
    answer the login with the email-not-verified error and nothing else
    happens, whatever the password; that answer differs from the
    invalid-credentials answer, which is what a verified account gets for a
    password that does not match.  src/index.js answers 403 and
    src/api/index.js 400, each with the error text of its own. *)
Theorem C4_login_unverified_rejected
    {jwt : JsonWebToken} {bcrypt : Bcrypt} (cfg : config) (s : server)
    (env : environment) (db : database) (req : login_body) (u : user) :
  Js.truthy (login_email req) = true ->
  Js.truthy (login_password req) = true ->
  query_failure env = None ->
  findByEmail (js_string (login_email req)) db = Some u ->
  user_verified u = false ->
  login cfg s env db req = answer db (email_not_verified s)
  /\ email_not_verified s <> invalid_credentials
  /\ (forall env' db' req' u',
        Js.truthy (login_email req') = true ->
        Js.truthy (login_password req') = true ->
        query_failure env' = None ->
        findByEmail (js_string (login_email req')) db' = Some u' ->
        user_verified u' = true ->
        bcrypt_compare (js_string (login_password req')) (user_password u') = false ->
        login cfg s env' db' req' = answer db' invalid_credentials).
Proof.
  intros He Hp Hq Hfind Hflag. split; [|split].
  - rewrite (login_found cfg s env db req u He Hp Hq Hfind), Hflag. reflexivity.
  - destruct s; discriminate.
  - intros env' db' req' u' He' Hp' Hq' Hfind' Hflag' Hcmp.
    rewrite (login_found cfg s env' db' req' u' He' Hp' Hq' Hfind'), Hflag', Hcmp.
    reflexivity.
Qed.

Lemma C4_witness :
  bcrypt_compare "hunter2" "pepper$hunter2" = true
  /\ login example_config index_js (calm 2000 "pepper") bobs_table bob_login
     = answer bobs_table {| status := 403; body := JsonError "Email not verified" |}.
Proof.
  split; [reflexivity|].
  apply (C4_login_unverified_rejected example_config index_js
           (calm 2000 "pepper") bobs_table bob_login
           {| user_id := 1;
              user_username := Some "bob";
              user_email := "bob@x.com";
              user_password := "pepper$hunter2";
              user_verified := false;
              user_created_at := Some 100 |});
    reflexivity.
Defined.

(** C5.  In every table a server can reach, a handler signs claims with an
    account id, or answers with a token, only in a login whose email finds a
    row that is verified in that table; the claims are that row's id and
    email.  Registration signs claims without an id and verification signs
    nothing. *)
Theorem C5_session_token_only_for_verified
    {jwt : JsonWebToken} {bcrypt : Bcrypt} (cfg : config) (s : server)
    (env : environment) (db : database) (r : request)
    (payload : claims) (expiresIn : Z) (token : string) :
  reachable cfg s db ->
  (In (Signed payload expiresIn token) (out_log (handle cfg s env db r))
   /\ claim_id payload <> None)
  \/ body (out_res (handle cfg s env db r)) = JsonToken token ->
  exists req u,
    r = Login req
    /\ findByEmail (js_string (login_email req)) db = Some u
    /\ user_verified u = true
    /\ In (Signed (session_claims u) one_hour token)
         (out_log (handle cfg s env db r)).
Proof.
  intros _ [[Hin Hid] | Hres].
  - destruct (signed_session cfg s env db r payload expiresIn token Hin Hid)
      as (req & u & Hr & Hfind & Hflag & Hp & Ht & _).
    exists req, u. subst. repeat split; assumption.
  - exact (token_answer cfg s env db r token Hres).
Qed.

Lemma C5_witness :
  exists req u,
    Login alice_login = Login req
    /\ findByEmail (js_string (login_email req)) alice_verified = Some u
    /\ user_verified u = true
    /\ In (Signed (session_claims u) one_hour
             (jwt_sign alice_session "s3cr3t" one_hour 3000))
         (out_log (handle example_config index_js (calm 3000 "pepper")
                     alice_verified (Login alice_login))).
Proof.
  apply (C5_session_token_only_for_verified example_config index_js
           (calm 3000 "pepper") alice_verified (Login alice_login)
           alice_session one_hour
           (jwt_sign alice_session "s3cr3t" one_hour 3000)).
  - exact (reachable_handle example_config index_js (calm 2000 "pepper") _
             (VerifyEmail (Some alice_token))
             (reachable_handle example_config index_js (calm 1000 "pepper") _
                (Register alice) (reachable_empty example_config index_js))).
  - left. split; [vm_compute; left; reflexivity | discriminate].
Defined.

(** C6, amended.  Both servers answer a registration that lacks the email or
    the password with their validation error, leaving the table untouched and
    signing and mailing nothing.  With email and password present and no
    username, src/index.js never answers the validation error and, when the
    email is free and nothing fails, completes the registration with a NULL
    username; src/api/index.js requires the username as well and answers the
    same request with its validation error. *)
Theorem C6_register_required_fields
    {jwt : JsonWebToken} {bcrypt : Bcrypt} (cfg : config) (s : server)
    (env : environment) (db : database) (req : register_body) :
  (Js.truthy (reg_email req) = false \/ Js.truthy (reg_password req) = false ->
   register cfg s env db req = answer db (validation_error s))
  /\ (Js.truthy (reg_email req) = true ->
      Js.truthy (reg_password req) = true ->
      Js.truthy (reg_username req) = false ->
      register cfg api_index_js env db req
      = answer db (validation_error api_index_js)
      /\ out_res (register cfg index_js env db req) <> validation_error index_js
      /\ (email_taken (js_string (reg_email req)) db = false ->
          bcrypt_failure env = None ->
          query_failure env = None ->
          mail_failure env = None ->
          out_res (register cfg index_js env db req) = registered index_js
          /\ exists u,
               findByEmail (js_string (reg_email req))
                 (out_db (register cfg index_js env db req)) = Some u
               /\ user_username u = None
               /\ user_verified u = false)).
Proof.
  split.
  - intros Hmissing. apply register_missing_field.
    destruct s; cbn [required_fields];
      destruct Hmissing as [-> | ->]; cbn;
      rewrite ?andb_false_r; reflexivity.
  - intros He Hp Hu. split; [|split].
    + apply register_missing_field. cbn [required_fields]. rewrite Hu. reflexivity.
    + apply index_js_register_validated; assumption.
    + intros Hfree Hhash Hquery Hmail.
      assert (Hreq : required_fields index_js req = true)
        by (cbn [required_fields]; rewrite He, Hp; reflexivity).
      assert (Hname : stored_username index_js req = None)
        by (cbn [stored_username]; unfold Js.or; rewrite Hu; reflexivity).
      assert (Hnull : username_taken (stored_username index_js req) db = false)
        by (rewrite Hname; reflexivity).
      destruct (register_fresh cfg index_js env db req Hreq Hfree Hnull Hhash Hquery)
        as (Hdb & _ & Hres).
      split; [exact (Hres Hmail)|].
      rewrite Hdb, Hname. eexists.
      split; [apply findByEmail_append; assumption|]. split; reflexivity.
Qed.

Lemma C6_witness :
  register example_config index_js (calm 1000 "pepper") bobs_table nameless
  = answer bobs_table (validation_error index_js)
  /\ out_res (register example_config index_js (calm 1000 "pepper") bobs_table
                anonymous)
     = registered index_js.
Proof.
  split.
  - apply (C6_register_required_fields example_config index_js
             (calm 1000 "pepper") bobs_table nameless).
    left. reflexivity.
  - destruct (C6_register_required_fields example_config index_js
                (calm 1000 "pepper") bobs_table anonymous) as [_ H].
    destruct (H eq_refl eq_refl eq_refl) as (_ & _ & Hdone).
    apply Hdone; reflexivity.
Defined.

(** C6 as stated fails: src/api/index.js answers a registration that supplies
    email and password and omits the username with its validation error, in
    an environment where nothing fails and on a table where the email is
    free. *)
Lemma C6_counterexample :
  Js.truthy (reg_email anonymous) = true
  /\ Js.truthy (reg_password anonymous) = true
  /\ reg_username anonymous = Js.undefined
  /\ email_taken "a@x.com" empty_database = false
  /\ register example_config api_index_js (calm 1000 "pepper") empty_database
       anonymous
     = answer empty_database
         {| status := 400; body := JsonError "Missing fields" |}
  /\ out_res (register example_config api_index_js (calm 1000 "pepper")
                empty_database anonymous)
     <> registered api_index_js.
Proof. repeat split; try reflexivity. discriminate. Qed.

(** C7.  After a registration that a server answered as completed, a second
    registration with the same email that carries the required fields, in an
    environment where bcrypt and the INSERT do not fail, is answered with the
    duplicate conflict (status 400), and the table, hence every field of the
    first account, is exactly as the first registration left it; nothing is
    signed or mailed. *)
Theorem C7_second_registration_conflicts
    {jwt : JsonWebToken} {bcrypt : Bcrypt} (cfg : config) (s : server)
    (env1 env2 : environment) (db : database) (req1 req2 : register_body) :
  out_res (register cfg s env1 db req1) = registered s ->
  required_fields s req2 = true ->
  js_string (reg_email req2) = js_string (reg_email req1) ->
  bcrypt_failure env2 = None ->
  query_failure env2 = None ->
  duplicate_conflict s
    (out_res (register cfg s env2 (out_db (register cfg s env1 db req1)) req2))
  /\ status (out_res (register cfg s env2
                        (out_db (register cfg s env1 db req1)) req2)) = 400
  /\ out_db (register cfg s env2 (out_db (register cfg s env1 db req1)) req2)
     = out_db (register cfg s env1 db req1)
  /\ out_log (register cfg s env2 (out_db (register cfg s env1 db req1)) req2)
     = [].
Proof.
  intros Hfirst Hreq Hsame Hhash Hquery.
  pose proof (registered_email_taken cfg s env1 db req1 Hfirst) as Htaken.
  rewrite <- Hsame in Htaken.
  destruct (register_duplicate cfg s env2 _ req2 Hreq Hhash Hquery Htaken)
    as (Hres & Hdb & Hlog).
  repeat split; try assumption.
  destruct s; cbn [duplicate_conflict] in Hres.
  - rewrite Hres. reflexivity.
  - destruct Hres as (entry & key & ->). reflexivity.
Qed.

Lemma C7_witness :
  duplicate_conflict index_js
    (out_res (register example_config index_js (calm 5000 "salty")
                (out_db (register example_config index_js (calm 1000 "pepper")
                           empty_database alice))
                mallory))
  /\ status (out_res (register example_config index_js (calm 5000 "salty")
                        (out_db (register example_config index_js
                                   (calm 1000 "pepper") empty_database alice))
                        mallory)) = 400
  /\ out_db (register example_config index_js (calm 5000 "salty")
               (out_db (register example_config index_js (calm 1000 "pepper")
                          empty_database alice))
               mallory)
     = out_db (register example_config index_js (calm 1000 "pepper")
                 empty_database alice)
  /\ out_log (register example_config index_js (calm 5000 "salty")
                (out_db (register example_config index_js (calm 1000 "pepper")
                           empty_database alice))
                mallory)
     = [].
Proof.
  apply (C7_second_registration_conflicts example_config index_js
           (calm 1000 "pepper") (calm 5000 "salty") empty_database alice mallory);
    reflexivity.
Defined.

(** C8 at the failing input.  The mail transport fails during alice's
    registration: src/api/index.js hands the mail over and answers exactly as
    it does when the delivery succeeds; src/index.js, on the same request,
    answers that the verification email could not be sent. *)
Theorem C8_api_register_hides_mail_failure :
  mail_failure mail_down <> None
  /\ mails (out_log (register example_config api_index_js mail_down
                       empty_database alice))
     = [verification_mail example_config api_index_js alice alice_token]
  /\ out_res (register example_config api_index_js mail_down empty_database alice)
     = {| status := 200;
          body := JsonMessage "Registered! Check your email to verify." |}
  /\ out_res (register example_config api_index_js mail_down empty_database alice)
     = out_res (register example_config api_index_js (calm 1000 "pepper")
                  empty_database alice)
  /\ out_res (register example_config index_js mail_down empty_database alice)
     = {| status := 500; body := JsonError "Failed to send verification email" |}.
Proof. repeat split; try reflexivity. discriminate. Qed.

(** C9 at the failing input.  The driver cannot reach the database:
    src/api/index.js answers bob's login with status 500 and alice's
    registration with status 400, each carrying the driver's message with the
    address of the database host; src/index.js answers both with the fixed
    text, as both servers do for a verification. *)
Theorem C9_api_leaks_driver_message :
  out_res (login example_config api_index_js database_down bobs_table bob_login)
  = {| status := 500; body := JsonError "connect ECONNREFUSED 10.0.0.12:3306" |}
  /\ out_res (register example_config api_index_js database_down bobs_table alice)
     = {| status := 400; body := JsonError "connect ECONNREFUSED 10.0.0.12:3306" |}
  /\ out_res (login example_config index_js database_down bobs_table bob_login)
     = database_error
  /\ out_res (register example_config index_js database_down bobs_table alice)
     = database_error
  /\ out_res (verify_email example_config api_index_js database_down bobs_table
                (Some bob_token))
     = {| status := 500; body := JsonError "Database error" |}
  /\ out_res (verify_email example_config index_js database_down bobs_table
                (Some bob_token))
     = {| status := 500; body := Send "Database error" |}.
Proof. repeat split; vm_compute; reflexivity. Qed.

(** C10.  The middleware of both servers takes the second space-separated
    word of the Authorization header, whatever the first word is.  A header
    made of any word without a space, a space and a token that verifies lets
    the request through with the decoded claims as its user.  A request with
    no Authorization header, or with a header of a single word, and no cookie
    token is answered 401; a header whose second word does not verify is
    answered 403; in both cases the request is not passed on. *)
Theorem C10_authenticate_ignores_scheme
    {jwt : JsonWebToken} (cfg : config) (s : server) (env : environment)
    (scheme token bad : string) (cookie : Js.value) (user : claims)
    (err : jwt_error) :
  Js.contains " " scheme = false ->
  (jwt_verify token (JWT_SECRET cfg) (now env) = Ok user ->
   authenticateToken cfg s env
     {| authorization := header scheme token; cookie_token := cookie |}
   = Next user)
  /\ authenticateToken cfg s env
       {| authorization := Js.undefined; cookie_token := Js.undefined |}
     = Rejected (unauthorized s)
  /\ authenticateToken cfg s env
       {| authorization := Some scheme; cookie_token := Js.undefined |}
     = Rejected (unauthorized s)
  /\ (Js.is_empty bad = false ->
      Js.contains " " bad = false ->
      jwt_verify bad (JWT_SECRET cfg) (now env) = Err err ->
      authenticateToken cfg s env
        {| authorization := header scheme bad; cookie_token := cookie |}
      = Rejected (forbidden s)).
Proof.
  intros Hscheme. split; [|split; [|split]].
  - intros Hverify.
    destruct (jwt_verify_compact _ _ _ _ Hverify) as [Hne Hword].
    destruct s; cbn [authenticateToken];
      [unfold IndexJs.authenticateToken | unfold ApiIndexJs.authenticateToken];
      cbn [authorization cookie_token header Js.and_then];
      rewrite header_not_empty, (second_word _ _ Hscheme Hword);
      unfold Js.or; cbn [Js.truthy]; rewrite Hne; cbn [negb js_string Js.truthy];
      rewrite ?Hne; cbn [negb]; rewrite Hverify; reflexivity.
  - destruct s; reflexivity.
  - pose proof (single_word scheme Hscheme) as Hnone.
    destruct s; cbn [authenticateToken];
      [unfold IndexJs.authenticateToken | unfold ApiIndexJs.authenticateToken];
      cbn [authorization cookie_token]; unfold Js.or; rewrite ?Hnone;
      cbn [Js.undefined Js.truthy negb]; rewrite ?Hnone; reflexivity.
  - intros Hne Hword Hverify.
    destruct s; cbn [authenticateToken];
      [unfold IndexJs.authenticateToken | unfold ApiIndexJs.authenticateToken];
      cbn [authorization cookie_token header Js.and_then];
      rewrite header_not_empty, (second_word _ _ Hscheme Hword);
      unfold Js.or; cbn [Js.truthy]; rewrite Hne; cbn [negb js_string Js.truthy];
      rewrite ?Hne; cbn [negb]; rewrite Hverify; reflexivity.
Qed.

Lemma C10_witness :
  authenticateToken example_config index_js (calm 3600 "pepper")
    {| authorization := header "Token" alice_session_token;
       cookie_token := Js.undefined |}
  = Next alice_session
  /\ authenticateToken example_config api_index_js (calm 9000 "pepper")
       {| authorization := header "Bearer" alice_session_token;
          cookie_token := Js.undefined |}
     = Rejected {| status := 403; body := StatusText |}.
Proof.
  split.
  - apply (C10_authenticate_ignores_scheme example_config index_js
             (calm 3600 "pepper") "Token" alice_session_token
             alice_session_token Js.undefined alice_session TokenExpiredError);
      reflexivity.
  - apply (C10_authenticate_ignores_scheme example_config api_index_js
             (calm 9000 "pepper") "Bearer" alice_session_token
             alice_session_token Js.undefined alice_session TokenExpiredError);
      reflexivity.
Defined.

(** * Further properties of the handlers *)

(** ** What a request can do to the table *)

(** The non-NULL usernames of a table. *)
Definition usernames (db : database) : list string :=
  flat_map (fun u => match user_username u with Some n => [n] | None => [] end)
    (users_tbl db).

(** No two rows share an email, a non-NULL username or an id, and every id is
    below the next AUTO_INCREMENT value. *)
Definition well_keyed (db : database) : Prop :=
  NoDup (map user_email (users_tbl db))
  /\ NoDup (usernames db)
  /\ NoDup (map user_id (users_tbl db))
  /\ Forall (fun u => user_id u < auto_increment db) (users_tbl db).

Lemma insert_user_ok created username email hashed db db' :
  insert_user created username email hashed db = Ok db' ->
  db' = append_user created username email hashed db
  /\ email_taken email db = false
  /\ username_taken username db = false.
Proof.
  unfold insert_user, email_taken, username_taken.
  destruct username as [n|].
  - destruct (existsb (has_username n) (users_tbl db)); [discriminate|].
    destruct (existsb (has_email email) (users_tbl db)); [discriminate|].
    intros H. inversion H. auto.
  - destruct (existsb (has_email email) (users_tbl db)); [discriminate|].
    intros H. inversion H. auto.
Qed.

Section Steps.
Context {jwt : JsonWebToken} {bcrypt : Bcrypt}.
Variable cfg : config.

(** The three things a request does to the table: nothing, one INSERT of an
    unverified row whose email and username were free, or the UPDATE for the
    email of a token that verified. *)
Lemma handle_table (s : server) (env : environment) (db : database) (r : request) :
  (out_db (handle cfg s env db r) = db)
  \/ (exists req created hashed,
        r = Register req
        /\ required_fields s req = true
        /\ email_taken (js_string (reg_email req)) db = false
        /\ username_taken (stored_username s req) db = false
        /\ out_db (handle cfg s env db r)
           = append_user created (stored_username s req)
               (js_string (reg_email req)) hashed db)
  \/ (exists token decoded,
        r = VerifyEmail (Some token)
        /\ jwt_verify token (JWT_SECRET cfg) (now env) = Ok decoded
        /\ query_failure env = None
        /\ out_db (handle cfg s env db r)
           = fst (update_verified (claim_email decoded) db)).
Proof.
  destruct r as [req|tok|req]; destruct s;
    cbn [handle register verify_email login required_fields stored_username].
  - unfold IndexJs.register, reply, query.
    destruct (Js.truthy (reg_email req)) eqn:Hte; [|left; reflexivity].
    destruct (Js.truthy (reg_password req)) eqn:Htp; [|left; reflexivity].
    cbn [negb orb andb].
    destruct (bcrypt_failure env); [left; reflexivity|].
    destruct (query_failure env);
      [left; destruct (String.eqb _ _); reflexivity|].
    destruct (insert_user _ _ _ _ db) as [db'|err] eqn:Hins;
      [|left; destruct (String.eqb _ _); reflexivity].
    apply insert_user_ok in Hins. destruct Hins as (-> & He & Hu).
    right. left. do 3 eexists.
    split; [reflexivity|]. split; [rewrite Hte, Htp; reflexivity|].
    split; [exact He|]. split; [exact Hu|].
    destruct (mail_failure env); reflexivity.
  - unfold ApiIndexJs.register, reply, query.
    destruct (Js.truthy (reg_username req)) eqn:Htu; [|left; reflexivity].
    destruct (Js.truthy (reg_email req)) eqn:Hte; [|left; reflexivity].
    destruct (Js.truthy (reg_password req)) eqn:Htp; [|left; reflexivity].
    cbn [negb orb andb].
    destruct (bcrypt_failure env); [left; reflexivity|].
    destruct (query_failure env); [left; reflexivity|].
    destruct (insert_user _ _ _ _ db) as [db'|err] eqn:Hins; [|left; reflexivity].
    apply insert_user_ok in Hins. destruct Hins as (-> & He & Hu).
    right. left. do 3 eexists.
    split; [reflexivity|]. split; [rewrite Htu, Hte, Htp; reflexivity|].
    split; [exact He|]. split; [exact Hu|]. reflexivity.
  - unfold IndexJs.verify_email, reply, query.
    destruct tok as [token|]; [|left; reflexivity].
    destruct (Js.truthy (Some token)); [|left; reflexivity]. cbn [negb js_string].
    destruct (jwt_verify token (JWT_SECRET cfg) (now env)) as [decoded|e] eqn:Hv;
      [|left; reflexivity].
    destruct (query_failure env) eqn:Hq; [left; reflexivity|].
    right. right. exists token, decoded.
    destruct (update_verified (claim_email decoded) db) as [db' n].
    repeat split; try assumption. destruct (Z.eqb n 0); reflexivity.
  - unfold ApiIndexJs.verify_email, reply, query.
    destruct tok as [token|]; [|left; reflexivity].
    destruct (Js.truthy (Some token)); [|left; reflexivity]. cbn [negb js_string].
    destruct (jwt_verify token (JWT_SECRET cfg) (now env)) as [decoded|e] eqn:Hv;
      [|left; reflexivity].
    destruct (query_failure env) eqn:Hq; [left; reflexivity|].
    right. right. exists token, decoded.
    destruct (update_verified (claim_email decoded) db) as [db' n].
    repeat split; try assumption.
  - left. unfold IndexJs.login, reply, query.
    repeat match goal with
           | |- context [if ?b then _ else _] => destruct b
           | |- context [match ?x with _ => _ end] => destruct x
           end; reflexivity.
  - left. unfold ApiIndexJs.login, reply, query.
    repeat match goal with
           | |- context [if ?b then _ else _] => destruct b
           | |- context [match ?x with _ => _ end] => destruct x
           end; reflexivity.
Qed.

End Steps.

(** The rows of the example tables. *)
Definition bob_row : user :=
  {| user_id := 1;
     user_username := Some "bob";
     user_email := "bob@x.com";
     user_password := "pepper$hunter2";
     user_verified := false;
     user_created_at := Some 100 |}.

Definition alice_row : user :=
  {| user_id := 1;
     user_username := Some "alice";
     user_email := "a@x.com";
     user_password := "pepper$secret";
     user_verified := true;
     user_created_at := Some 1000 |}.

(** ** The keys of a reachable table *)

Lemma snoc_NoDup {A : Type} (l : list A) (a : A) :
  NoDup l -> ~ In a l -> NoDup (l ++ [a]).
Proof.
  intros Hl Ha. apply NoDup_app.
  - exact Hl.
  - constructor; [intros [] | constructor].
  - intros x Hx [<- | []]. exact (Ha Hx).
Qed.

Lemma email_free (email : string) (db : database) :
  email_taken email db = false -> ~ In email (map user_email (users_tbl db)).
Proof.
  unfold email_taken. intros H Hin. apply in_map_iff in Hin.
  destruct Hin as (u & Hu & Hin).
  assert (existsb (has_email email) (users_tbl db) = true) as Ht.
  { apply existsb_exists. exists u. split; [exact Hin|].
    unfold has_email. rewrite Hu. apply String.eqb_refl. }
  rewrite H in Ht. discriminate.
Qed.

Lemma username_free (n : string) (db : database) :
  username_taken (Some n) db = false -> ~ In n (usernames db).
Proof.
  unfold username_taken, usernames. intros H Hin. apply in_flat_map in Hin.
  destruct Hin as (u & Hin & Hu).
  assert (existsb (has_username n) (users_tbl db) = true) as Ht.
  { apply existsb_exists. exists u. split; [exact Hin|].
    unfold has_username. destruct (user_username u) as [m|]; [|contradiction].
    destruct Hu as [-> | []]. apply String.eqb_refl. }
  rewrite H in Ht. discriminate.
Qed.

Lemma well_keyed_append created username email hashed db :
  well_keyed db ->
  email_taken email db = false ->
  username_taken username db = false ->
  well_keyed (append_user created username email hashed db).
Proof.
  intros (He & Hn & Hi & Hb) Hemail Huser.
  unfold well_keyed, append_user, usernames. cbn [users_tbl auto_increment].
  rewrite !map_app, flat_map_app. cbn [map flat_map user_email user_id user_username].
  repeat split.
  - apply snoc_NoDup; [exact He | apply email_free; exact Hemail].
  - destruct username as [n|]; cbn [app].
    + apply snoc_NoDup; [exact Hn | apply username_free; exact Huser].
    + rewrite app_nil_r. exact Hn.
  - apply snoc_NoDup; [exact Hi|]. intros Hin. apply in_map_iff in Hin.
    destruct Hin as (u & Hu & Hin).
    rewrite Forall_forall in Hb. specialize (Hb u Hin). lia.
  - apply Forall_app. split.
    + apply (Forall_impl _ (P := fun u => user_id u < auto_increment db));
        [intros u Hu; lia | exact Hb].
    + constructor; [cbn; lia | constructor].
Qed.

Lemma update_keeps_keys (email : string) (db : database) :
  map user_email (users_tbl (fst (update_verified email db)))
  = map user_email (users_tbl db)
  /\ usernames (fst (update_verified email db)) = usernames db
  /\ map user_id (users_tbl (fst (update_verified email db)))
     = map user_id (users_tbl db)
  /\ auto_increment (fst (update_verified email db)) = auto_increment db.
Proof.
  unfold update_verified, usernames. cbn [fst users_tbl auto_increment].
  repeat split; induction (users_tbl db) as [|u l IH]; cbn [map flat_map];
    try reflexivity; rewrite IH; destruct (has_email email u); reflexivity.
Qed.

Lemma well_keyed_update (email : string) (db : database) :
  well_keyed db -> well_keyed (fst (update_verified email db)).
Proof.
  intros (He & Hn & Hi & Hb).
  destruct (update_keeps_keys email db) as (Ee & En & Ei & Ea).
  unfold well_keyed. rewrite Ee, En, Ei, Ea. repeat split; try assumption.
  unfold update_verified. cbn [fst users_tbl]. apply Forall_map.
  apply (Forall_impl _ (P := fun u => user_id u < auto_increment db));
    [|exact Hb].
  intros u Hu. destruct (has_email email u); exact Hu.
Qed.

Lemma well_keyed_handle {jwt : JsonWebToken} {bcrypt : Bcrypt} (cfg : config)
    (s : server) (env : environment) (db : database) (r : request) :
  well_keyed db -> well_keyed (out_db (handle cfg s env db r)).
Proof.
  intros Hdb.
  destruct (handle_table cfg s env db r)
    as [-> | [(req & created & hashed & _ & _ & He & Hu & ->)
            | (token & decoded & _ & _ & _ & ->)]].
  - exact Hdb.
  - apply well_keyed_append; assumption.
  - apply well_keyed_update; exact Hdb.
Qed.

Lemma select_at_most_one (email : string) (l : list user) :
  NoDup (map user_email l) ->
  (List.length (filter (has_email email) l) <= 1)%nat.
Proof.
  induction l as [|u l IH]; cbn [map filter]; [intros _; cbn; lia|].
  intros Hnd. inversion Hnd as [|x xs Hnotin Hrest]. subst.
  destruct (has_email email u) eqn:Hu; [|exact (IH Hrest)].
  apply String.eqb_eq in Hu.
  assert (filter (has_email email) l = []) as ->.
  { apply filter_none. destruct (existsb (has_email email) l) eqn:Hex;
      [|reflexivity].
    apply existsb_exists in Hex. destruct Hex as (v & Hv & Hve).
    apply String.eqb_eq in Hve. exfalso. apply Hnotin.
    apply in_map_iff. exists v. split; [congruence | exact Hv]. }
  cbn. lia.
Qed.

Lemma select_own_row (l : list user) (u : user) :
  NoDup (map user_email l) -> In u l ->
  filter (has_email (user_email u)) l = [u].
Proof.
  induction l as [|v l IH]; cbn [map filter In]; [intros _ []|].
  intros Hnd Hin. inversion Hnd as [|x xs Hnotin Hrest]. subst.
  destruct Hin as [-> | Hin].
  - unfold has_email at 1. rewrite String.eqb_refl. f_equal.
    apply filter_none. destruct (existsb (has_email (user_email u)) l) eqn:Hex;
      [|reflexivity].
    apply existsb_exists in Hex. destruct Hex as (w & Hw & Hwe).
    apply String.eqb_eq in Hwe. exfalso. apply Hnotin.
    apply in_map_iff. exists w. split; assumption.
  - destruct (has_email (user_email u) v) eqn:Hv.
    + apply String.eqb_eq in Hv. exfalso. apply Hnotin.
      rewrite Hv. apply in_map. exact Hin.
    + exact (IH Hrest Hin).
Qed.

Lemma well_keyed_reachable {jwt : JsonWebToken} {bcrypt : Bcrypt} (cfg : config)
    (s : server) (db : database) :
  reachable cfg s db -> well_keyed db.
Proof.
  induction 1 as [|env db r _ IH].
  - repeat split; constructor.
  - apply well_keyed_handle. exact IH.
Qed.

(** X1.  Every table a server can reach from the empty one is well keyed: no
    two rows share an email, a non-NULL username or an id, and every id is
    below the next AUTO_INCREMENT value.  The INSERT of a registration is the
    only statement that adds a row, and it refuses a taken email or
    username. *)
Theorem X1_reachable_tables_are_well_keyed
    {jwt : JsonWebToken} {bcrypt : Bcrypt} (cfg : config) (s : server)
    (db : database) :
  reachable cfg s db -> well_keyed db.
Proof. exact (well_keyed_reachable cfg s db). Qed.

Lemma alice_verified_reachable :
  reachable example_config index_js alice_verified.
Proof.
  exact (reachable_handle example_config index_js (calm 2000 "pepper") _
           (VerifyEmail (Some alice_token))
           (reachable_handle example_config index_js (calm 1000 "pepper") _
              (Register alice) (reachable_empty example_config index_js))).
Qed.

Lemma X1_witness : well_keyed alice_verified.
Proof.
  apply (X1_reachable_tables_are_well_keyed example_config index_js alice_verified).
  exact alice_verified_reachable.
Defined.

(** X2.  In a reachable table the SELECT by email of a login returns at most
    one row, and every row is the one found under its own email: the account
    a login reads as [results[0]] is the only account of that email. *)
Theorem X2_select_by_email_finds_the_row
    {jwt : JsonWebToken} {bcrypt : Bcrypt} (cfg : config) (s : server)
    (db : database) (email : string) (u : user) :
  reachable cfg s db ->
  In u (users_tbl db) ->
  (List.length (select_by_email email db) <= 1)%nat
  /\ select_by_email (user_email u) db = [u]
  /\ findByEmail (user_email u) db = Some u.
Proof.
  intros Hreach Hin.
  destruct (well_keyed_reachable cfg s db Hreach) as (He & _).
  split.
  - apply select_at_most_one. exact He.
  - unfold findByEmail, select_by_email.
    rewrite (select_own_row _ _ He Hin). split; reflexivity.
Qed.

Lemma X2_witness :
  (List.length (select_by_email "nobody@x.com" alice_verified) <= 1)%nat
  /\ select_by_email "a@x.com" alice_verified = [alice_row]
  /\ findByEmail "a@x.com" alice_verified = Some alice_row.
Proof.
  apply (X2_select_by_email_finds_the_row example_config index_js alice_verified
           "nobody@x.com" alice_row).
  - exact alice_verified_reachable.
  - left. reflexivity.
Defined.

(** ** Rows are kept, and verified only through a token *)

Section Rows.
Context {jwt : JsonWebToken} {bcrypt : Bcrypt}.
Variable cfg : config.

Lemma update_rows (email : string) (db : database) (u : user) :
  In u (users_tbl (fst (update_verified email db))) <->
  exists v, In v (users_tbl db)
            /\ u = (if has_email email v then set_verified v else v).
Proof.
  unfold update_verified. cbn [fst users_tbl]. rewrite in_map_iff.
  split; intros (v & H1 & H2).
  - exists v. split; [exact H2 | symmetry; exact H1].
  - exists v. split; [symmetry; exact H2 | exact H1].
Qed.

Lemma set_verified_verified (u : user) :
  user_verified u = true -> set_verified u = u.
Proof. destruct u as [i n e p v c]. cbn. intros ->. reflexivity. Qed.

End Rows.

(** X3.  No request removes a row or changes anything of it but the verified
    flag, and the flag only goes from false to true: a row of the table is
    still there after the request, or it is there with verified set, which
    happens only in a verification whose token verifies and carries the
    row's email.  In particular a verified row stays as it is. *)
Theorem X3_rows_are_kept
    {jwt : JsonWebToken} {bcrypt : Bcrypt} (cfg : config) (s : server)
    (env : environment) (db : database) (r : request) (u : user) :
  In u (users_tbl db) ->
  (In u (users_tbl (out_db (handle cfg s env db r)))
   \/ (exists token decoded,
         r = VerifyEmail (Some token)
         /\ jwt_verify token (JWT_SECRET cfg) (now env) = Ok decoded
         /\ claim_email decoded = user_email u
         /\ In (set_verified u) (users_tbl (out_db (handle cfg s env db r)))))
  /\ (user_verified u = true ->
      In u (users_tbl (out_db (handle cfg s env db r)))).
Proof.
  intros Hin.
  destruct (handle_table cfg s env db r)
    as [-> | [(req & created & hashed & _ & _ & _ & _ & ->)
            | (token & decoded & Hr & Hv & _ & ->)]].
  - split; [left|intros _]; exact Hin.
  - assert (In u (users_tbl (append_user created (stored_username s req)
                               (js_string (reg_email req)) hashed db))) as H
      by (cbn [append_user users_tbl]; apply in_or_app; left; exact Hin).
    split; [left|intros _]; exact H.
  - destruct (has_email (claim_email decoded) u) eqn:Hu.
    + assert (In (set_verified u)
                (users_tbl (fst (update_verified (claim_email decoded) db)))) as H.
      { apply update_rows. exists u. rewrite Hu. auto. }
      split.
      * right. exists token, decoded. apply String.eqb_eq in Hu.
        repeat split; try assumption. symmetry. exact Hu.
      * intros Hflag. rewrite (set_verified_verified u Hflag) in H. exact H.
    + assert (In u (users_tbl (fst (update_verified (claim_email decoded) db)))) as H.
      { apply update_rows. exists u. rewrite Hu. auto. }
      split; [left|intros _]; exact H.
Qed.

Lemma X3_witness :
  In alice_row
    (users_tbl (out_db (handle example_config index_js (calm 2000 "pepper")
                          alice_verified (VerifyEmail (Some alice_token))))).
Proof.
  apply (X3_rows_are_kept example_config index_js (calm 2000 "pepper")
           alice_verified (VerifyEmail (Some alice_token)) alice_row).
  - left. reflexivity.
  - reflexivity.
Defined.

(** X4.  A row that is verified after a request was verified before it, or
    the request was a verification whose token verifies under the signing
    secret and carries that row's email.  A registration never creates a
    verified row and a login never sets the flag. *)
Theorem X4_verified_only_through_a_token
    {jwt : JsonWebToken} {bcrypt : Bcrypt} (cfg : config) (s : server)
    (env : environment) (db : database) (r : request) (u : user) :
  In u (users_tbl (out_db (handle cfg s env db r))) ->
  user_verified u = true ->
  In u (users_tbl db)
  \/ exists token decoded v,
       r = VerifyEmail (Some token)
       /\ jwt_verify token (JWT_SECRET cfg) (now env) = Ok decoded
       /\ In v (users_tbl db)
       /\ user_email v = claim_email decoded
       /\ u = set_verified v.
Proof.
  intros Hin Hflag.
  destruct (handle_table cfg s env db r)
    as [Hdb | [(req & created & hashed & _ & _ & _ & _ & Hdb)
             | (token & decoded & Hr & Hv & _ & Hdb)]];
    rewrite Hdb in Hin.
  - left. exact Hin.
  - cbn [append_user users_tbl] in Hin. apply in_app_or in Hin.
    destruct Hin as [Hin | [<- | []]]; [left; exact Hin|].
    cbn in Hflag. discriminate.
  - apply update_rows in Hin. destruct Hin as (v & Hv' & Hu).
    destruct (has_email (claim_email decoded) v) eqn:Hmatch.
    + right. exists token, decoded, v. apply String.eqb_eq in Hmatch.
      repeat split; assumption.
    + left. subst u. exact Hv'.
Qed.

Lemma X4_witness :
  In (set_verified bob_row) (users_tbl bobs_table)
  \/ exists token decoded v,
       VerifyEmail (Some bob_token) = VerifyEmail (Some token)
       /\ jwt_verify token (JWT_SECRET example_config) (now (calm 2000 "pepper"))
          = Ok decoded
       /\ In v (users_tbl bobs_table)
       /\ user_email v = claim_email decoded
       /\ set_verified bob_row = set_verified v.
Proof.
  apply (X4_verified_only_through_a_token example_config index_js
           (calm 2000 "pepper") bobs_table (VerifyEmail (Some bob_token))
           (set_verified bob_row)).
  - left. reflexivity.
  - reflexivity.
Defined.

(** X5.  A login only reads: whatever the request, the environment and the
    table, both servers leave the table as it is and hand nothing to the mail
    transport. *)
Theorem X5_login_only_reads
    {jwt : JsonWebToken} {bcrypt : Bcrypt} (cfg : config) (s : server)
    (env : environment) (db : database) (req : login_body) :
  out_db (login cfg s env db req) = db
  /\ mails (out_log (login cfg s env db req)) = [].
Proof.
  destruct s; cbn [login];
    [unfold IndexJs.login | unfold ApiIndexJs.login]; unfold reply, query;
    repeat match goal with
           | |- context [if ?b then _ else _] => destruct b
           | |- context [match ?x with _ => _ end] => destruct x
           end; split; reflexivity.
Qed.

(** X6.  A verification signs nothing and mails nothing, and it adds no row,
    removes none and rewrites no id, username, email or password: only
    verified flags can differ afterwards. *)
Theorem X6_verify_email_only_sets_flags
    {jwt : JsonWebToken} (cfg : config) (s : server)
    (env : environment) (db : database) (token : Js.value) :
  out_log (verify_email cfg s env db token) = []
  /\ map user_id (users_tbl (out_db (verify_email cfg s env db token)))
     = map user_id (users_tbl db)
  /\ map user_username (users_tbl (out_db (verify_email cfg s env db token)))
     = map user_username (users_tbl db)
  /\ map user_email (users_tbl (out_db (verify_email cfg s env db token)))
     = map user_email (users_tbl db)
  /\ map user_password (users_tbl (out_db (verify_email cfg s env db token)))
     = map user_password (users_tbl db)
  /\ auto_increment (out_db (verify_email cfg s env db token)) = auto_increment db.
Proof.
  assert (Hupd : forall email,
             map user_id (users_tbl (fst (update_verified email db)))
             = map user_id (users_tbl db)
             /\ map user_username (users_tbl (fst (update_verified email db)))
                = map user_username (users_tbl db)
             /\ map user_email (users_tbl (fst (update_verified email db)))
                = map user_email (users_tbl db)
             /\ map user_password (users_tbl (fst (update_verified email db)))
                = map user_password (users_tbl db)
             /\ auto_increment (fst (update_verified email db)) = auto_increment db).
  { intros email. unfold update_verified. cbn [fst users_tbl auto_increment].
    rewrite !map_map.
    repeat split; apply map_ext; intros u;
      destruct (has_email email u); reflexivity. }
  destruct s; cbn [verify_email];
    [unfold IndexJs.verify_email | unfold ApiIndexJs.verify_email];
    unfold reply, query;
    destruct (negb (Js.truthy token)); try (repeat split; reflexivity);
    destruct (jwt_verify _ _ _) as [decoded|e]; try (repeat split; reflexivity);
    destruct (query_failure env); try (repeat split; reflexivity);
    specialize (Hupd (claim_email decoded));
    destruct (update_verified (claim_email decoded) db) as [db' n];
    cbn [fst] in Hupd;
    try destruct (Z.eqb n 0); cbn [out_log out_db]; split; try reflexivity;
    exact Hupd.
Qed.

(** X7.  A registration is all or nothing.  Either the table is left as it
    was and nothing is signed or mailed, or exactly one row is appended,
    unverified, under the next id, holding the bcrypt digest of the password
    and not the password, and then exactly one token is signed for the email
    and exactly one mail is handed to the transport, addressed to it. *)
Theorem X7_register_all_or_nothing
    {jwt : JsonWebToken} {bcrypt : Bcrypt} (cfg : config) (s : server)
    (env : environment) (db : database) (req : register_body) :
  (out_db (register cfg s env db req) = db
   /\ out_log (register cfg s env db req) = [])
  \/ (required_fields s req = true
      /\ out_db (register cfg s env db req)
         = append_user
             (match s with index_js => Some (now env) | api_index_js => None end)
             (stored_username s req) (js_string (reg_email req))
             (bcrypt_hash (js_string (reg_password req)) 10 (salt env)) db
      /\ out_log (register cfg s env db req)
         = [ Signed {| claim_id := None; claim_email := js_string (reg_email req) |}
               one_day
               (jwt_sign {| claim_id := None;
                            claim_email := js_string (reg_email req) |}
                  (JWT_SECRET cfg) one_day (now env));
             SendMail
               (verification_mail cfg s req
                  (jwt_sign {| claim_id := None;
                               claim_email := js_string (reg_email req) |}
                     (JWT_SECRET cfg) one_day (now env))) ]).
Proof.
  destruct s; cbn [register required_fields stored_username].
  - unfold IndexJs.register, IndexJs.signJwt, reply, query.
    destruct (Js.truthy (reg_email req)); [|left; split; reflexivity].
    destruct (Js.truthy (reg_password req)); [|left; split; reflexivity].
    cbn [negb orb andb].
    destruct (bcrypt_failure env); [left; split; reflexivity|].
    destruct (query_failure env);
      [left; destruct (String.eqb _ _); split; reflexivity|].
    destruct (insert_user _ _ _ _ db) as [db'|err] eqn:Hins;
      [|left; destruct (String.eqb _ _); split; reflexivity].
    apply insert_user_ok in Hins. destruct Hins as (-> & _ & _).
    right. destruct (mail_failure env); repeat split; reflexivity.
  - unfold ApiIndexJs.register, reply, query.
    destruct (Js.truthy (reg_username req)); [|left; split; reflexivity].
    destruct (Js.truthy (reg_email req)); [|left; split; reflexivity].
    destruct (Js.truthy (reg_password req)); [|left; split; reflexivity].
    cbn [negb orb andb].
    destruct (bcrypt_failure env); [left; split; reflexivity|].
    destruct (query_failure env); [left; split; reflexivity|].
    destruct (insert_user _ _ _ _ db) as [db'|err] eqn:Hins;
      [|left; split; reflexivity].
    apply insert_user_ok in Hins. destruct Hins as (-> & _ & _).
    right. repeat split; reflexivity.
Qed.

(** ** Conflicts and failed deliveries *)

Lemma insert_user_name_taken created (n : string) email hashed db :
  username_taken (Some n) db = true ->
  insert_user created (Some n) email hashed db
  = Err (duplicate_entry n "users_tbl.username").
Proof. unfold insert_user, username_taken. intros ->. reflexivity. Qed.

Lemma required_fields_truthy (s : server) (req : register_body) :
  required_fields s req = true ->
  Js.truthy (reg_email req) = true /\ Js.truthy (reg_password req) = true
  /\ (s = api_index_js -> Js.truthy (reg_username req) = true).
Proof.
  destruct s; cbn [required_fields]; intros H.
  - apply andb_prop in H. destruct H as [He Hp].
    split; [exact He|]. split; [exact Hp|]. discriminate.
  - apply andb_prop in H. destruct H as [H Hp].
    apply andb_prop in H. destruct H as [Hu He].
    split; [exact He|]. split; [exact Hp|]. intros _. exact Hu.
Qed.

(** X8.  The username is a key too.  A registration that carries the required
    fields and a username some account already has is answered with the
    duplicate conflict, whatever its email, and leaves the table as it was
    and the mail transport alone. *)
Theorem X8_register_taken_username_conflicts
    {jwt : JsonWebToken} {bcrypt : Bcrypt} (cfg : config) (s : server)
    (env : environment) (db : database) (req : register_body) :
  required_fields s req = true ->
  bcrypt_failure env = None ->
  query_failure env = None ->
  username_taken (stored_username s req) db = true ->
  duplicate_conflict s (out_res (register cfg s env db req))
  /\ out_db (register cfg s env db req) = db
  /\ out_log (register cfg s env db req) = [].
Proof.
  intros Hreq Hhash Hquery Htaken.
  destruct (required_fields_truthy s req Hreq) as (He & Hp & Hu).
  destruct s; cbn [register stored_username duplicate_conflict] in *.
  - unfold IndexJs.register, query. rewrite He, Hp, Hhash, Hquery.
    cbn [negb orb].
    destruct (Js.or (reg_username req) None) as [n|]; [|discriminate].
    rewrite (insert_user_name_taken _ n _ _ db Htaken).
    repeat split; reflexivity.
  - unfold ApiIndexJs.register, query. rewrite (Hu eq_refl), He, Hp, Hhash, Hquery.
    cbn [negb orb].
    destruct (reg_username req) as [n|]; [|discriminate].
    rewrite (insert_user_name_taken _ n _ _ db Htaken).
    repeat split; try reflexivity. do 2 eexists. reflexivity.
Qed.

Lemma X8_witness :
  duplicate_conflict api_index_js
    (out_res (register example_config api_index_js (calm 1000 "pepper")
                bobs_table second_bob))
  /\ out_db (register example_config api_index_js (calm 1000 "pepper")
               bobs_table second_bob) = bobs_table
  /\ out_log (register example_config api_index_js (calm 1000 "pepper")
                bobs_table second_bob) = [].
Proof.
  apply (X8_register_taken_username_conflicts example_config api_index_js
           (calm 1000 "pepper") bobs_table second_bob); reflexivity.
Defined.

(** X9.  In src/index.js a delivery that fails does not undo the INSERT: the
    registration is answered with the delivery error while the unverified
    account stays in the table, and a new registration with the same email is
    then refused as a duplicate, so the address cannot be registered again. *)
Theorem X9_index_js_failed_delivery_keeps_the_account
    {jwt : JsonWebToken} {bcrypt : Bcrypt} (cfg : config)
    (env env' : environment) (db : database) (req req' : register_body)
    (failure : string) :
  required_fields index_js req = true ->
  email_taken (js_string (reg_email req)) db = false ->
  username_taken (stored_username index_js req) db = false ->
  bcrypt_failure env = None ->
  query_failure env = None ->
  mail_failure env = Some failure ->
  required_fields index_js req' = true ->
  js_string (reg_email req') = js_string (reg_email req) ->
  bcrypt_failure env' = None ->
  query_failure env' = None ->
  out_res (IndexJs.register cfg env db req)
  = {| status := 500; body := JsonError "Failed to send verification email" |}
  /\ creates_unverified_account (js_string (reg_email req))
       (out_db (IndexJs.register cfg env db req))
  /\ out_res (IndexJs.register cfg env' (out_db (IndexJs.register cfg env db req)) req')
     = {| status := 400; body := JsonError "User or email already exists" |}.
Proof.
  intros Hreq Hfree Hname Hhash Hquery Hmail Hreq' Hsame Hhash' Hquery'.
  destruct (register_fresh cfg index_js env db req Hreq Hfree Hname Hhash Hquery)
    as (Hdb & Hlog & _).
  cbn [register] in Hdb, Hlog.
  split; [|split].
  - apply (index_js_reports_mail_failure cfg env db req failure Hmail).
    rewrite Hlog. discriminate.
  - rewrite Hdb. eexists. split; [apply findByEmail_append; exact Hfree|].
    split; reflexivity.
  - assert (Htaken : email_taken (js_string (reg_email req'))
                       (out_db (IndexJs.register cfg env db req)) = true)
      by (rewrite Hdb, Hsame; apply email_taken_append).
    destruct (register_duplicate cfg index_js env' _ req' Hreq' Hhash' Hquery' Htaken)
      as (Hres & _).
    exact Hres.
Qed.

Lemma X9_witness :
  out_res (IndexJs.register example_config mail_down empty_database alice)
  = {| status := 500; body := JsonError "Failed to send verification email" |}
  /\ creates_unverified_account "a@x.com"
       (out_db (IndexJs.register example_config mail_down empty_database alice))
  /\ out_res (IndexJs.register example_config (calm 5000 "salty")
                (out_db (IndexJs.register example_config mail_down
                           empty_database alice))
                mallory)
     = {| status := 400; body := JsonError "User or email already exists" |}.
Proof.
  apply (X9_index_js_failed_delivery_keeps_the_account example_config
           mail_down (calm 5000 "salty") empty_database alice mallory
           "connect ETIMEDOUT smtp.gmail.com:465"); reflexivity.
Defined.

(** ** From registration to the protected route *)

Section Journey.
Context {jwt : JsonWebToken} {bcrypt : Bcrypt}.
Variable cfg : config.

(** A header of a scheme word, a space and a token that verifies passes the
    middleware of either server. *)
Lemma authenticate_header (s : server) (env : environment)
    (scheme token : string) (cookie : Js.value) (user : claims) :
  Js.contains " " scheme = false ->
  jwt_verify token (JWT_SECRET cfg) (now env) = Ok user ->
  authenticateToken cfg s env
    {| authorization := header scheme token; cookie_token := cookie |}
  = Next user.
Proof.
  intros Hscheme Hverify.
  destruct (jwt_verify_compact _ _ _ _ Hverify) as [Hne Hword].
  destruct s; cbn [authenticateToken];
    [unfold IndexJs.authenticateToken | unfold ApiIndexJs.authenticateToken];
    cbn [authorization cookie_token header Js.and_then];
    rewrite header_not_empty, (second_word _ _ Hscheme Hword);
    unfold Js.or; cbn [Js.truthy]; rewrite Hne; cbn [negb js_string Js.truthy];
    rewrite ?Hne; cbn [negb]; rewrite Hverify; reflexivity.
Qed.

(** The row a registration appends, once verified. *)
Definition verified_row (s : server) (env : environment) (db : database)
    (req : register_body) : user :=
  {| user_id := auto_increment db;
     user_username := stored_username s req;
     user_email := js_string (reg_email req);
     user_password := bcrypt_hash (js_string (reg_password req)) 10 (salt env);
     user_verified := true;
     user_created_at :=
       match s with index_js => Some (now env) | api_index_js => None end |}.

End Journey.

(** X10.  The whole way in.  After a registration with a free email and
    username, the token of the mailed link, presented within a day, verifies
    the email; a login with the registered email and password is then
    answered with a session token signed for the id and the email of the new
    row, on both servers. *)
Theorem X10_register_verify_login
    {jwt : JsonWebToken} {bcrypt : Bcrypt} (cfg : config) (s : server)
    (env1 env2 env3 : environment) (db : database) (req : register_body) :
  required_fields s req = true ->
  email_taken (js_string (reg_email req)) db = false ->
  username_taken (stored_username s req) db = false ->
  bcrypt_failure env1 = None ->
  query_failure env1 = None ->
  now env1 <= now env2 < now env1 + one_day ->
  query_failure env2 = None ->
  query_failure env3 = None ->
  exists token,
    mails (out_log (register cfg s env1 db req))
    = [verification_mail cfg s req token]
    /\ out_res (verify_email cfg s env2 (out_db (register cfg s env1 db req))
                  (Some token))
       = email_verified s
    /\ findByEmail (js_string (reg_email req))
         (out_db (verify_email cfg s env2 (out_db (register cfg s env1 db req))
                    (Some token)))
       = Some (verified_row s env1 db req)
    /\ login cfg s env3
         (out_db (verify_email cfg s env2 (out_db (register cfg s env1 db req))
                    (Some token)))
         {| login_email := reg_email req; login_password := reg_password req |}
       = {| out_db :=
              out_db (verify_email cfg s env2
                        (out_db (register cfg s env1 db req)) (Some token));
            out_res :=
              {| status := 200;
                 body := JsonToken
                           (jwt_sign (session_claims (verified_row s env1 db req))
                              (JWT_SECRET cfg) one_hour (now env3)) |};
            out_log :=
              [ Signed (session_claims (verified_row s env1 db req)) one_hour
                  (jwt_sign (session_claims (verified_row s env1 db req))
                     (JWT_SECRET cfg) one_hour (now env3)) ] |}.
Proof.
  intros Hreq Hfree Hname Hhash Hq1 Hclock Hq2 Hq3.
  destruct (required_fields_truthy s req Hreq) as (He & Hp & _).
  destruct (register_fresh cfg s env1 db req Hreq Hfree Hname Hhash Hq1)
    as (Hdb & Hlog & _).
  set (payload := {| claim_id := None; claim_email := js_string (reg_email req) |}) in *.
  set (token := jwt_sign payload (JWT_SECRET cfg) one_day (now env1)) in *.
  exists token.
  assert (Hverify : jwt_verify token (JWT_SECRET cfg) (now env2) = Ok payload)
    by (apply jwt_verify_sign; exact Hclock).
  rewrite Hdb, Hlog.
  rewrite (verify_email_valid cfg s env2 _ token payload Hverify Hq2).
  cbn [answer out_db out_res claim_email payload mails].
  rewrite email_taken_append.
  assert (Hfind : findByEmail (js_string (reg_email req))
                    (fst (update_verified (js_string (reg_email req))
                            (append_user
                               (match s with
                                | index_js => Some (now env1)
                                | api_index_js => None
                                end)
                               (stored_username s req) (js_string (reg_email req))
                               (bcrypt_hash (js_string (reg_password req)) 10
                                  (salt env1)) db)))
                  = Some (verified_row s env1 db req)).
  { rewrite findByEmail_update, findByEmail_append by exact Hfree.
    destruct s; reflexivity. }
  split; [reflexivity|]. split; [destruct s; reflexivity|].
  split; [exact Hfind|].
  rewrite (login_found cfg s env3 _
             {| login_email := reg_email req; login_password := reg_password req |}
             (verified_row s env1 db req) He Hp Hq3 Hfind).
  cbn [verified_row user_verified user_password negb].
  rewrite bcrypt_compare_hash. reflexivity.
Qed.

Lemma X10_witness :
  exists token,
    mails (out_log (register example_config api_index_js (calm 1000 "pepper")
                      bobs_table alice))
    = [verification_mail example_config api_index_js alice token]
    /\ out_res (verify_email example_config api_index_js (calm 2000 "pepper")
                  (out_db (register example_config api_index_js
                             (calm 1000 "pepper") bobs_table alice))
                  (Some token))
       = email_verified api_index_js
    /\ findByEmail (js_string (reg_email alice))
         (out_db (verify_email example_config api_index_js (calm 2000 "pepper")
                    (out_db (register example_config api_index_js
                               (calm 1000 "pepper") bobs_table alice))
                    (Some token)))
       = Some (verified_row api_index_js (calm 1000 "pepper") bobs_table alice)
    /\ login example_config api_index_js (calm 3000 "pepper")
         (out_db (verify_email example_config api_index_js (calm 2000 "pepper")
                    (out_db (register example_config api_index_js
                               (calm 1000 "pepper") bobs_table alice))
                    (Some token)))
         {| login_email := reg_email alice; login_password := reg_password alice |}
       = {| out_db :=
              out_db (verify_email example_config api_index_js
                        (calm 2000 "pepper")
                        (out_db (register example_config api_index_js
                                   (calm 1000 "pepper") bobs_table alice))
                        (Some token));
            out_res :=
              {| status := 200;
                 body := JsonToken
                           (jwt_sign
                              (session_claims
                                 (verified_row api_index_js (calm 1000 "pepper")
                                    bobs_table alice))
                              (JWT_SECRET example_config) one_hour
                              (now (calm 3000 "pepper"))) |};
            out_log :=
              [ Signed
                  (session_claims
                     (verified_row api_index_js (calm 1000 "pepper")
                        bobs_table alice))
                  one_hour
                  (jwt_sign
                     (session_claims
                        (verified_row api_index_js (calm 1000 "pepper")
                           bobs_table alice))
                     (JWT_SECRET example_config) one_hour
                     (now (calm 3000 "pepper"))) ] |}.
Proof.
  apply (X10_register_verify_login example_config api_index_js
           (calm 1000 "pepper") (calm 2000 "pepper") (calm 3000 "pepper")
           bobs_table alice);
    try reflexivity.
  cbn. lia.
Defined.

(** X11.  The token a login answers with opens the protected route: for an
    hour from the login, the middleware of the server that signed it, given
    a header of any scheme word, a space and that token, passes the request on
    with the account's id and email as its user. *)
Theorem X11_login_token_authenticates
    {jwt : JsonWebToken} {bcrypt : Bcrypt} (cfg : config) (s : server)
    (env env' : environment) (db : database) (req : login_body) (u : user)
    (scheme : string) (cookie : Js.value) :
  Js.truthy (login_email req) = true ->
  Js.truthy (login_password req) = true ->
  query_failure env = None ->
  findByEmail (js_string (login_email req)) db = Some u ->
  user_verified u = true ->
  bcrypt_compare (js_string (login_password req)) (user_password u) = true ->
  Js.contains " " scheme = false ->
  now env <= now env' < now env + one_hour ->
  exists token,
    out_res (login cfg s env db req) = {| status := 200; body := JsonToken token |}
    /\ authenticateToken cfg s env'
         {| authorization := header scheme token; cookie_token := cookie |}
       = Next {| claim_id := Some (user_id u); claim_email := user_email u |}.
Proof.
  intros He Hp Hq Hfind Hflag Hcmp Hscheme Hclock.
  rewrite (login_found cfg s env db req u He Hp Hq Hfind), Hflag, Hcmp.
  cbn [negb out_res]. eexists. split; [reflexivity|].
  apply authenticate_header; [exact Hscheme|].
  apply jwt_verify_sign. exact Hclock.
Qed.

Lemma X11_witness :
  exists token,
    out_res (login example_config index_js (calm 3000 "pepper") alice_verified
               alice_login)
    = {| status := 200; body := JsonToken token |}
    /\ authenticateToken example_config index_js (calm 6599 "pepper")
         {| authorization := header "Bearer" token; cookie_token := Js.undefined |}
       = Next {| claim_id := Some 1; claim_email := "a@x.com" |}.
Proof.
  apply (X11_login_token_authenticates example_config index_js
           (calm 3000 "pepper") (calm 6599 "pepper") alice_verified alice_login
           alice_row "Bearer" Js.undefined);
    try reflexivity.
  cbn. lia.
Defined.

(** X12.  The middleware does not tell a verification token from a session
    token.  The token of the link mailed by a registration, sent as the
    second word of the Authorization header within a day, passes the
    middleware with the registered email as its user and no id, although the
    account is still unverified. *)
Theorem X12_verification_token_authenticates
    {jwt : JsonWebToken} {bcrypt : Bcrypt} (cfg : config) (s : server)
    (env env' : environment) (db : database) (req : register_body)
    (scheme : string) (cookie : Js.value) :
  required_fields s req = true ->
  email_taken (js_string (reg_email req)) db = false ->
  username_taken (stored_username s req) db = false ->
  bcrypt_failure env = None ->
  query_failure env = None ->
  Js.contains " " scheme = false ->
  now env <= now env' < now env + one_day ->
  exists token,
    mails (out_log (register cfg s env db req))
    = [verification_mail cfg s req token]
    /\ creates_unverified_account (js_string (reg_email req))
         (out_db (register cfg s env db req))
    /\ authenticateToken cfg s env'
         {| authorization := header scheme token; cookie_token := cookie |}
       = Next {| claim_id := None; claim_email := js_string (reg_email req) |}.
Proof.
  intros Hreq Hfree Hname Hhash Hquery Hscheme Hclock.
  destruct (register_fresh cfg s env db req Hreq Hfree Hname Hhash Hquery)
    as (Hdb & Hlog & _).
  rewrite Hdb, Hlog. eexists. split; [reflexivity|]. split.
  - eexists. split; [apply findByEmail_append; exact Hfree|]. split; reflexivity.
  - apply authenticate_header; [exact Hscheme|].
    apply jwt_verify_sign. exact Hclock.
Qed.

Lemma X12_witness :
  exists token,
    mails (out_log (register example_config index_js (calm 1000 "pepper")
                      empty_database alice))
    = [verification_mail example_config index_js alice token]
    /\ creates_unverified_account "a@x.com"
         (out_db (register example_config index_js (calm 1000 "pepper")
                    empty_database alice))
    /\ authenticateToken example_config index_js (calm 50000 "pepper")
         {| authorization := header "Bearer" token; cookie_token := Js.undefined |}
       = Next {| claim_id := None; claim_email := "a@x.com" |}.
Proof.
  apply (X12_verification_token_authenticates example_config index_js
           (calm 1000 "pepper") (calm 50000 "pepper") empty_database alice
           "Bearer" Js.undefined);
    try reflexivity.
  cbn. lia.
Defined.

(** ** Requests that are turned away *)

(** The answer of each server to a login that lacks a field. *)
Definition login_validation_error (s : server) : response :=
  match s with
  | index_js => {| status := 400; body := JsonError "Email and password required" |}
  | api_index_js =>
      {| status := 400; body := JsonError "Email and password are required" |}
  end.

Definition user_not_found : response :=
  {| status := 400; body := JsonError "User not found" |}.

(** The answer of each server to a verification without a token, and with a
    token that does not verify. *)
Definition token_missing (s : server) : response :=
  match s with
  | index_js => {| status := 400; body := Send "Token missing" |}
  | api_index_js => {| status := 400; body := JsonError "Token missing" |}
  end.

Definition token_refused (s : server) : response :=
  match s with
  | index_js => {| status := 400; body := Send "Invalid or expired token" |}
  | api_index_js => {| status := 400; body := JsonError "Invalid token" |}
  end.

(** X13.  A login that lacks the email or the password is answered with the
    validation error before the table is queried, so even while the database
    is down; a login with both, for an email no row has, is answered that the
    user was not found, a different answer from the one for a wrong password.
    Neither touches the table or signs anything. *)
Theorem X13_login_refusals
    {jwt : JsonWebToken} {bcrypt : Bcrypt} (cfg : config) (s : server)
    (env : environment) (db : database) (req : login_body) :
  (Js.truthy (login_email req) = false \/ Js.truthy (login_password req) = false ->
   login cfg s env db req = answer db (login_validation_error s))
  /\ (Js.truthy (login_email req) = true ->
      Js.truthy (login_password req) = true ->
      query_failure env = None ->
      email_taken (js_string (login_email req)) db = false ->
      login cfg s env db req = answer db user_not_found
      /\ user_not_found <> invalid_credentials).
Proof.
  split.
  - intros Hmissing.
    destruct s; cbn [login];
      [unfold IndexJs.login | unfold ApiIndexJs.login];
      destruct Hmissing as [-> | ->]; cbn [negb orb];
      rewrite ?orb_true_r; reflexivity.
  - intros He Hp Hq Hfree. split; [|discriminate].
    assert (Hsel : select_by_email (js_string (login_email req)) db = [])
      by (apply filter_none; exact Hfree).
    destruct s; cbn [login];
      [unfold IndexJs.login | unfold ApiIndexJs.login];
      unfold query; rewrite He, Hp, Hq, Hsel; reflexivity.
Qed.

Lemma X13_witness :
  login example_config api_index_js database_down bobs_table
    {| login_email := Some "bob@x.com"; login_password := Some EmptyString |}
  = answer bobs_table (login_validation_error api_index_js)
  /\ login example_config index_js (calm 2000 "pepper") bobs_table alice_login
     = answer bobs_table user_not_found.
Proof.
  split.
  - apply (X13_login_refusals example_config api_index_js database_down
             bobs_table
             {| login_email := Some "bob@x.com";
                login_password := Some EmptyString |}).
    right. reflexivity.
  - apply (X13_login_refusals example_config index_js (calm 2000 "pepper")
             bobs_table alice_login); reflexivity.
Defined.

(** X14.  A verification without a token, with an empty one, or with one
    that does not verify under the signing secret is answered with status
    400 and never reaches the UPDATE: the table is left as it was, whatever
    the state of the database. *)
Theorem X14_verify_email_refusals
    {jwt : JsonWebToken} (cfg : config) (s : server)
    (env : environment) (db : database) (token : string) (err : jwt_error) :
  verify_email cfg s env db Js.undefined = answer db (token_missing s)
  /\ verify_email cfg s env db (Some EmptyString) = answer db (token_missing s)
  /\ (Js.is_empty token = false ->
      jwt_verify token (JWT_SECRET cfg) (now env) = Err err ->
      verify_email cfg s env db (Some token) = answer db (token_refused s)).
Proof.
  split; [destruct s; reflexivity|]. split; [destruct s; reflexivity|].
  intros Hne Hverify.
  destruct s; cbn [verify_email];
    [unfold IndexJs.verify_email | unfold ApiIndexJs.verify_email];
    cbn [Js.truthy js_string]; rewrite Hne, Hverify; reflexivity.
Qed.

Lemma X14_witness :
  verify_email example_config index_js database_down bobs_table
    (Some "not.a.token")
  = answer bobs_table (token_refused index_js).
Proof.
  apply (X14_verify_email_refusals example_config index_js database_down
           bobs_table "not.a.token" Reference.malformed);
    reflexivity.
Defined.

(** ** Corners of the Authorization header *)

Lemma split_two_words (scheme token rest : string) :
  Js.contains " " scheme = false ->
  Js.contains " " token = false ->
  Js.index (Js.split " " (scheme ++ String " " (token ++ String " " rest))) 1
  = Some token.
Proof.
  intros Hs Ht. rewrite (split_append _ _ _ Hs), (split_append _ _ _ Ht).
  reflexivity.
Qed.

(** X15.  Only the second space-separated word of the header counts.  Words
    after the token are ignored, so a token that verifies still passes when
    more text follows it.  Two spaces after the scheme word make the second
    word empty: with no cookie token the request is answered 401 whatever
    follows, and so is a request with an empty header. *)
Theorem X15_authorization_header_words
    {jwt : JsonWebToken} (cfg : config) (s : server) (env : environment)
    (scheme token rest : string) (cookie : Js.value) (user : claims) :
  Js.contains " " scheme = false ->
  (jwt_verify token (JWT_SECRET cfg) (now env) = Ok user ->
   authenticateToken cfg s env
     {| authorization := Some (scheme ++ String " " (token ++ String " " rest));
        cookie_token := cookie |}
   = Next user)
  /\ authenticateToken cfg s env
       {| authorization := Some (scheme ++ String " " (String " " rest));
          cookie_token := Js.undefined |}
     = Rejected (unauthorized s)
  /\ authenticateToken cfg s env
       {| authorization := Some EmptyString; cookie_token := Js.undefined |}
     = Rejected (unauthorized s).
Proof.
  intros Hscheme. split; [|split].
  - intros Hverify.
    destruct (jwt_verify_compact _ _ _ _ Hverify) as [Hne Hword].
    destruct s; cbn [authenticateToken];
      [unfold IndexJs.authenticateToken | unfold ApiIndexJs.authenticateToken];
      cbn [authorization cookie_token Js.and_then];
      rewrite header_not_empty, (split_two_words _ _ _ Hscheme Hword);
      unfold Js.or; cbn [Js.truthy]; rewrite Hne; cbn [negb js_string Js.truthy];
      rewrite ?Hne; cbn [negb]; rewrite Hverify; reflexivity.
  - destruct s; cbn [authenticateToken];
      [unfold IndexJs.authenticateToken | unfold ApiIndexJs.authenticateToken];
      cbn [authorization cookie_token Js.and_then];
      rewrite header_not_empty, (split_append _ _ _ Hscheme);
      cbn [Js.split Ascii.eqb Bool.eqb Js.index nth_error];
      reflexivity.
  - destruct s; reflexivity.
Qed.

Lemma X15_witness :
  authenticateToken example_config api_index_js (calm 3600 "pepper")
    {| authorization :=
         Some ("Bearer" ++ String " " (alice_session_token ++ String " " "trailing words"));
       cookie_token := Js.undefined |}
  = Next alice_session
  /\ authenticateToken example_config api_index_js (calm 3600 "pepper")
       {| authorization :=
            Some ("Bearer" ++ String " " (String " " alice_session_token));
          cookie_token := Js.undefined |}
     = Rejected (unauthorized api_index_js).
Proof.
  split.
  - apply (X15_authorization_header_words example_config api_index_js
             (calm 3600 "pepper") "Bearer" alice_session_token "trailing words"
             Js.undefined alice_session); reflexivity.
  - apply (X15_authorization_header_words example_config api_index_js
             (calm 3600 "pepper") "Bearer" alice_session_token alice_session_token
             Js.undefined alice_session); reflexivity.
Defined.



(** ** The verification link *)

Lemma strip_trailing_slash_last (base : string) (c : ascii) :
  Js.strip_trailing_slash (base ++ String c EmptyString)
  = if Ascii.eqb c "/" then base else base ++ String c EmptyString.
Proof.
  induction base as [|d base IH]; cbn [append Js.strip_trailing_slash Js.is_empty].
  - rewrite andb_true_r. destruct (Ascii.eqb c "/"); reflexivity.
  - assert (Js.is_empty (base ++ String c EmptyString) = false) as ->
      by (destruct base; reflexivity).
    rewrite andb_false_r, IH. destruct (Ascii.eqb c "/"); reflexivity.
Qed.

(** X17.  The link src/index.js mails has one slash between the base URL and
    the path whether or not BASE_URL_PROD ends with a slash: a single
    trailing slash of the base is dropped, and a base that ends with any
    other character is used as it is. *)
Theorem X17_index_js_link_drops_one_trailing_slash
    (cfg : config) (base token : string) (c : ascii) :
  (BASE_URL_PROD cfg = base ++ "/" ->
   IndexJs.verifyLink cfg token = base ++ "/verify-email?token=" ++ token)
  /\ (Ascii.eqb c "/" = false ->
      BASE_URL_PROD cfg = base ++ String c EmptyString ->
      IndexJs.verifyLink cfg token
      = (base ++ String c EmptyString) ++ "/verify-email?token=" ++ token).
Proof.
  unfold IndexJs.verifyLink. split.
  - intros ->. rewrite (strip_trailing_slash_last base "/"). reflexivity.
  - intros Hc ->. rewrite (strip_trailing_slash_last base c), Hc. reflexivity.
Qed.

Lemma X17_witness :
  IndexJs.verifyLink example_config "T"
  = "https://jixify.example/verify-email?token=T"
  /\ IndexJs.verifyLink
       {| JWT_SECRET := "s3cr3t";
          EMAIL_USER := "noreply@jixify.example";
          BASE_URL := "http://localhost:3000";
          BASE_URL_PROD := "https://jixify.example" |} "T"
     = "https://jixify.example/verify-email?token=T".
Proof.
  split.
  - apply (X17_index_js_link_drops_one_trailing_slash example_config
             "https://jixify.example" "T" "e"). reflexivity.
  - apply (X17_index_js_link_drops_one_trailing_slash
             {| JWT_SECRET := "s3cr3t";
                EMAIL_USER := "noreply@jixify.example";
                BASE_URL := "http://localhost:3000";
                BASE_URL_PROD := "https://jixify.example" |}
             "https://jixify.exampl" "T" "e"); reflexivity.
Defined.

(** ** The protected route *)

(** X18.  The completion service is called only behind the middleware and
    the message check: if a chat request leads to a call, the request passed
    [authenticateToken] and carries a non-empty message, the call is the only
    one, it names the model gpt-4o-mini and its last message is the user's
    text.  A request that is turned away costs no call. *)
Theorem X18_chat_calls_only_when_authenticated
    {jwt : JsonWebToken} (cfg : config) (s : server) (env : environment)
    (upstream : result string completion) (req : chat_request)
    (call : completion_request) :
  In call (chat_calls (chat cfg s env upstream req)) ->
  (exists user, authenticateToken cfg s env (chat_auth req) = Next user)
  /\ Js.truthy (chat_message_of req) = true
  /\ chat_calls (chat cfg s env upstream req) = [call]
  /\ model call = "gpt-4o-mini"
  /\ last (messages call) {| role := EmptyString; content := EmptyString |}
     = {| role := "user"; content := js_string (chat_message_of req) |}.
Proof.
  destruct s; cbn [chat authenticateToken];
    [unfold IndexJs.chat | unfold ApiIndexJs.chat].
  - destruct (IndexJs.authenticateToken cfg env (chat_auth req)) as [res|user];
      [intros []|].
    destruct (Js.truthy (chat_message_of req)); cbn [negb]; [|intros []].
    destruct upstream as [choices|m]; cbn [chat_calls In];
      intros [<- | []]; repeat split; eauto.
  - destruct (ApiIndexJs.authenticateToken cfg env (chat_auth req)) as [res|user];
      [intros []|].
    destruct (Js.truthy (chat_message_of req)); cbn [negb]; [|intros []].
    destruct upstream as [[|[text|] choices]|m]; cbn [chat_calls In];
      intros [<- | []]; repeat split; eauto.
Qed.

(** A chat request of alice's, with her session token. *)
Definition alice_chat : chat_request :=
  {| chat_auth := {| authorization := header "Bearer" alice_session_token;
                     cookie_token := Js.undefined |};
     chat_message_of := Some "hello" |}.

Lemma X18_witness :
  (exists user,
     authenticateToken example_config index_js (calm 3600 "pepper")
       (chat_auth alice_chat) = Next user)
  /\ Js.truthy (chat_message_of alice_chat) = true
  /\ chat_calls (chat example_config index_js (calm 3600 "pepper")
                   (Ok [Some (Some "hi")]) alice_chat)
     = [ {| model := "gpt-4o-mini";
            messages := [ {| role := "system"; content := "You are an assistant." |};
                          {| role := "user"; content := "hello" |} ];
            max_tokens := Some 2000 |} ]
  /\ model {| model := "gpt-4o-mini";
              messages := [ {| role := "system"; content := "You are an assistant." |};
                            {| role := "user"; content := "hello" |} ];
              max_tokens := Some 2000 |} = "gpt-4o-mini"
  /\ last (messages {| model := "gpt-4o-mini";
                       messages := [ {| role := "system";
                                        content := "You are an assistant." |};
                                     {| role := "user"; content := "hello" |} ];
                       max_tokens := Some 2000 |})
       {| role := EmptyString; content := EmptyString |}
     = {| role := "user"; content := js_string (chat_message_of alice_chat) |}.
Proof.
  apply (X18_chat_calls_only_when_authenticated example_config index_js
           (calm 3600 "pepper") (Ok [Some (Some "hi")]) alice_chat).
  left. reflexivity.
Defined.

(** X19.  What the protected route answers once a request passed the
    middleware with a message.  When the completion service throws,
    src/index.js answers a fixed error whatever the message of the error,
    while src/api/index.js copies that message into its answer.  When the
    service returns no choice, src/index.js replies with the empty string
    and src/api/index.js answers 500 with an error; when it returns a first
    choice with a text, both reply with that text. *)
Theorem X19_chat_answers
    {jwt : JsonWebToken} (cfg : config) (s : server) (env : environment)
    (req : chat_request) (user : claims) (failure text : string)
    (others : completion) :
  authenticateToken cfg s env (chat_auth req) = Next user ->
  Js.truthy (chat_message_of req) = true ->
  chat_res (chat cfg s env (Err failure) req)
  = Plain {| status := 500;
             body := JsonError match s with
                               | index_js => "AI processing error"
                               | api_index_js => failure
                               end |}
  /\ match s with
     | index_js =>
         chat_res (chat cfg s env (Ok []) req) = Reply (Some EmptyString)
     | api_index_js =>
         exists message,
           chat_res (chat cfg s env (Ok []) req)
           = Plain {| status := 500; body := JsonError message |}
     end
  /\ chat_res (chat cfg s env (Ok (Some (Some text) :: others)) req)
     = Reply (Some text).
Proof.
  intros Hauth Hmsg.
  destruct s; cbn [chat authenticateToken] in *;
    [unfold IndexJs.chat | unfold ApiIndexJs.chat];
    rewrite Hauth, Hmsg; repeat split; try reflexivity.
  eexists. reflexivity.
Qed.

Lemma X19_witness :
  chat_res (chat example_config api_index_js (calm 3600 "pepper")
              (Err "401 Incorrect API key provided: sk-live") alice_chat)
  = Plain {| status := 500;
             body := JsonError "401 Incorrect API key provided: sk-live" |}
  /\ (exists message,
        chat_res (chat example_config api_index_js (calm 3600 "pepper")
                    (Ok []) alice_chat)
        = Plain {| status := 500; body := JsonError message |})
  /\ chat_res (chat example_config api_index_js (calm 3600 "pepper")
                 (Ok [Some (Some "hi")]) alice_chat)
     = Reply (Some "hi").
Proof.
  apply (X19_chat_answers example_config api_index_js (calm 3600 "pepper")
           alice_chat alice_session "401 Incorrect API key provided: sk-live"
           "hi" []); reflexivity.
Defined.
